(** * The refill-timer panel: countdown reconciliation, formatting,
      request client, transport client and view composition

    A shallow embedding of the panel front-end: the [App] component with
    its [TimerCard] and [formatTime], the [WebSocketClient] of the [ws]
    module and the [ApiClient] of [src/api.ts].

    Conventions of the embedding.
    - A JavaScript string is the list of its UTF-16 code units.
    - A JavaScript number is an integer of [Z]: every number the panel
      computes with ([remaining_seconds], [Date.now()], the reconnect delay,
      the form's minutes and seconds) is an integer, and on integers below
      [2^53] the double-precision operations used here are exact.
    - A value that came out of [JSON.parse] is a [json] tree; a property
      read yields [option json], [None] standing for [undefined].
    - A computation that may throw returns [result]. *)

From Stdlib Require Import ZArith NArith List String Ascii Bool Lia.
From Stdlib Require Import DecimalString.
From Stdlib Require DecimalZ.
Import ListNotations.
Local Open Scope Z_scope.
#[local] Set Warnings "-register-all".

(* ================================================================== *)
(** ** Strings *)

Module JsString.

Definition jsstring : Type := list N.

(** A source-code string literal (ASCII) as a JavaScript string. *)
Definition lit (s : string) : jsstring :=
  map N_of_ascii (list_ascii_of_string s).

Fixpoint str_eqb (a b : jsstring) : bool :=
  match a, b with
  | [], [] => true
  | x :: a', y :: b' => N.eqb x y && str_eqb a' b'
  | _, _ => false
  end.

(** ECMAScript [WhiteSpace] and [LineTerminator] code points, the set
    that [String.prototype.trim] strips. *)
Definition isWhiteSpace (c : N) : bool :=
  let c := Z.of_N c in
  ((9 <=? c) && (c <=? 13))            (* TAB LF VT FF CR *)
  || (c =? 32)                         (* SP *)
  || (c =? 160)                        (* NBSP *)
  || (c =? 5760)                       (* U+1680 *)
  || ((8192 <=? c) && (c <=? 8202))    (* U+2000 .. U+200A *)
  || (c =? 8232) || (c =? 8233)        (* LS PS *)
  || (c =? 8239)                       (* U+202F *)
  || (c =? 8287)                       (* U+205F *)
  || (c =? 12288)                      (* U+3000 *)
  || (c =? 65279).                     (* U+FEFF *)

Fixpoint trimStart (s : jsstring) : jsstring :=
  match s with
  | [] => []
  | c :: rest => if isWhiteSpace c then trimStart rest else s
  end.

Definition trimEnd (s : jsstring) : jsstring := rev (trimStart (rev s)).

(** [s.trim()] *)
Definition trim (s : jsstring) : jsstring := trimEnd (trimStart s).

(** [n.toString()] / template interpolation of an integer number. *)
Definition toString (n : Z) : jsstring :=
  lit (NilEmpty.string_of_int (Z.to_int n)).

(** [s.padStart(targetLength, fill)] with a one-unit fill string. *)
Definition padStart (targetLength : nat) (fill : N) (s : jsstring) : jsstring :=
  repeat fill (targetLength - List.length s) ++ s.

(** [parts.join(sep)] *)
Fixpoint join (sep : jsstring) (parts : list jsstring) : jsstring :=
  match parts with
  | [] => []
  | [p] => p
  | p :: rest => p ++ sep ++ join sep rest
  end.

(** The code unit of the decimal digit [d]. *)
Definition digit (d : Z) : N := Z.to_N (48 + d).

End JsString.
Import JsString.

(* ================================================================== *)
(** ** Exceptions and parsed JSON values *)

Inductive exn_kind : Type := ErrorK | TypeErrorK | SyntaxErrorK.

Record exn : Type := mkExn { kind : exn_kind; message : jsstring }.

Inductive result (A : Type) : Type :=
| Ok (a : A)
| Throw (e : exn).
Arguments Ok {A} a.
Arguments Throw {A} e.

Definition bind {A B : Type} (r : result A) (k : A -> result B) : result B :=
  match r with
  | Ok a => k a
  | Throw e => Throw e
  end.

Notation "x <- r ;; k" := (bind r (fun x => k))
  (at level 61, r at next level, right associativity).

Inductive json : Type :=
| JNull
| JBool (b : bool)
| JNum (n : Z)
| JStr (s : jsstring)
| JArr (items : list json)
| JObj (fields : list (jsstring * json)).

Module Js.

(** Own-property lookup in a parsed object. *)
Fixpoint lookup (k : jsstring) (fields : list (jsstring * json)) : option json :=
  match fields with
  | [] => None
  | (k', v) :: rest => if str_eqb k k' then Some v else lookup k rest
  end.

(** The engine's wording of the [TypeError] raised by a property read on
    [null] (V8's text; no definition below inspects it). *)
Definition null_property_message (k : jsstring) : jsstring :=
  lit "Cannot read properties of null (reading '" ++ k ++ lit "')".

(** [v.k] for [k] one of the names the panel reads ([type], [timers],
    [status], [detail]): none of them is a property of an array, a
    string, a number or a boolean, so only objects can answer; reading a
    property of [null] throws. *)
Definition get_prop (v : json) (k : jsstring) : result (option json) :=
  match v with
  | JNull => Throw (mkExn TypeErrorK (null_property_message k))
  | JObj fields => Ok (lookup k fields)
  | _ => Ok None
  end.

(** [ToBoolean] *)
Definition truthy (v : option json) : bool :=
  match v with
  | None => false
  | Some JNull => false
  | Some (JBool b) => b
  | Some (JNum n) => negb (n =? 0)
  | Some (JStr s) => negb (str_eqb s [])
  | Some (JArr _) => true
  | Some (JObj _) => true
  end.

(** [v === "literal"] *)
Definition strict_eq_str (v : option json) (s : jsstring) : bool :=
  match v with
  | Some (JStr s') => str_eqb s' s
  | _ => false
  end.

(** [Array.isArray(v)] *)
Definition isArray (v : json) : bool :=
  match v with
  | JArr _ => true
  | _ => false
  end.

(** [String(v)], as [new Error(v)] applies it to its argument. *)
Fixpoint ToString (v : json) : jsstring :=
  match v with
  | JNull => lit "null"
  | JBool true => lit "true"
  | JBool false => lit "false"
  | JNum n => toString n
  | JStr s => s
  | JArr items =>
      join (lit ",")
        ((fix elems (l : list json) : list jsstring :=
            match l with
            | [] => []
            | JNull :: r => [] :: elems r
            | x :: r => ToString x :: elems r
            end) items)
  | JObj _ => lit "[object Object]"
  end.

(** [String(v || fallback)]: the message [new Error(v || fallback)]
    carries. *)
Definition str_of_or (v : option json) (fallback : jsstring) : jsstring :=
  match v with
  | Some d => if truthy v then ToString d else fallback
  | None => fallback
  end.

(** [a || b] on strings, as in [err.message || "fallback"]. *)
Definition str_or (a b : jsstring) : jsstring :=
  match a with
  | [] => b
  | _ => a
  end.

(** [items.filter(pred)] with a predicate that may throw: the first
    exception aborts the whole call. *)
Fixpoint filter (pred : json -> result bool) (items : list json)
  : result (list json) :=
  match items with
  | [] => Ok []
  | x :: rest =>
      keep <- pred x ;;
      rest' <- filter pred rest ;;
      Ok (if keep then x :: rest' else rest')
  end.

End Js.

(* ================================================================== *)
(** ** api.ts: data model *)

Inductive Status : Type := active | completed | deleted.

Definition Status_eqb (a b : Status) : bool :=
  match a, b with
  | active, active | completed, completed | deleted, deleted => true
  | _, _ => false
  end.

Definition Status_str (s : Status) : jsstring :=
  match s with
  | active => lit "active"
  | completed => lit "completed"
  | deleted => lit "deleted"
  end.

Record Timer : Type := mkTimer {
  id : jsstring;
  name : jsstring;
  remaining_seconds : Z;
  total_seconds : Z;
  status : Status;
  discord_message_id : option jsstring
}.

Record TimerCreate : Type := mkTimerCreate {
  tc_name : jsstring;
  minutes : Z;
  seconds : Z
}.

(** The JSON object a well-formed [Timer] is received as. *)
Definition Timer_json (t : Timer) : json :=
  JObj ([ (lit "id", JStr (id t));
          (lit "name", JStr (name t));
          (lit "remaining_seconds", JNum (remaining_seconds t));
          (lit "total_seconds", JNum (total_seconds t));
          (lit "status", JStr (Status_str (status t))) ]
        ++ match discord_message_id t with
           | Some m => [ (lit "discord_message_id", JStr m) ]
           | None => []
           end).

(** [JSON.stringify(data)] of a creation draft, as the value it denotes. *)
Definition TimerCreate_json (d : TimerCreate) : json :=
  JObj [ (lit "name", JStr (tc_name d));
         (lit "minutes", JNum (minutes d));
         (lit "seconds", JNum (seconds d)) ].

(** What parsing a text as JSON ([JSON.parse], [response.json()]) comes
    to: the parsed value, or the parser's [SyntaxError]. *)
Inductive json_outcome : Type :=
| Parsed (v : json)
| Unparseable (parser_message : jsstring).

(* ================================================================== *)
(** ** api.ts: the request client *)

Module ApiClient.

Definition BASE_URL : jsstring := lit "/wos/counter-bot/1458/api".

Record Request : Type := mkRequest {
  method : jsstring;
  url : jsstring;
  body : option json
}.

Record Response : Type := mkResponse {
  http_status : Z;
  json_body : json_outcome
}.

(** [response.ok]: the status is in the range 200-299. *)
Definition ok (r : Response) : bool :=
  (200 <=? http_status r) && (http_status r <=? 299).

(** What [await fetch(...)] settles to. *)
Inductive fetch_outcome : Type :=
| Rejected (e : exn)
| Responded (r : Response).

(** [await response.json()] *)
Definition response_json (r : Response) : result json :=
  match json_body r with
  | Parsed v => Ok v
  | Unparseable m => Throw (mkExn SyntaxErrorK m)
  end.

Section Operations.

(** The network: the outcome of each request. *)
Variable fetch : Request -> fetch_outcome.

Definition await_fetch (req : Request) : result Response :=
  match fetch req with
  | Rejected e => Throw e
  | Responded r => Ok r
  end.

Definition getTimers : list Request * result json :=
  let req := mkRequest (lit "GET") (BASE_URL ++ lit "/timers") None in
  ([req],
   response <- await_fetch req ;;
   if negb (ok response) then
     Throw (mkExn ErrorK (lit "Failed to fetch timers"))
   else response_json response).

Definition createTimer (data : TimerCreate)
  : list Request * result json :=
  let req := mkRequest (lit "POST") (BASE_URL ++ lit "/timers")
               (Some (TimerCreate_json data)) in
  ([req],
   response <- await_fetch req ;;
   if negb (ok response) then
     error <- response_json response ;;
     detail <- Js.get_prop error (lit "detail") ;;
     Throw (mkExn ErrorK
              (Js.str_of_or detail (lit "Failed to create timer")))
   else response_json response).

Definition adjustTimer (id : jsstring) (adjustSeconds : Z)
  : list Request * result unit :=
  let req := mkRequest (lit "PATCH") (BASE_URL ++ lit "/timers/" ++ id)
               (Some (JObj [ (lit "adjust_seconds", JNum adjustSeconds) ])) in
  ([req],
   response <- await_fetch req ;;
   if negb (ok response) then
     Throw (mkExn ErrorK (lit "Failed to adjust timer"))
   else Ok tt).

Definition restartTimer (id : jsstring) : list Request * result unit :=
  let req := mkRequest (lit "POST")
               (BASE_URL ++ lit "/timers/" ++ id ++ lit "/restart") None in
  ([req],
   response <- await_fetch req ;;
   if negb (ok response) then
     Throw (mkExn ErrorK (lit "Failed to restart timer"))
   else Ok tt).

Definition deleteTimer (id : jsstring) : list Request * result unit :=
  let req := mkRequest (lit "DELETE") (BASE_URL ++ lit "/timers/" ++ id) None in
  ([req],
   response <- await_fetch req ;;
   if negb (ok response) then
     Throw (mkExn ErrorK (lit "Failed to delete timer"))
   else Ok tt).

End Operations.

End ApiClient.

(* ================================================================== *)
(** ** App.tsx: formatTime *)

Definition formatTime (seconds : Z) : jsstring :=
  if seconds <=? 0 then lit "REFILL"
  else if seconds <=? 60 then toString seconds
  else
    let mins := seconds / 60 in          (* Math.floor(seconds / 60) *)
    let secs := Z.rem seconds 60 in      (* seconds % 60 *)
    padStart 2 (digit 0) (toString mins)
      ++ lit ":" ++ padStart 2 (digit 0) (toString secs).

(* ================================================================== *)
(** ** App.tsx: TimerCard *)

Module TimerCard.

(** The state of one mounted card: its current props, the [useState]
    cell, the two anchor refs, and the animation loop.  [lastUpdate] is
    [Some u] while a frame callback is scheduled ([animationFrameRef]
    holds its handle and the closure variable [lastUpdate] holds [u]),
    [None] while no loop runs. *)
Record State : Type := mkState {
  timer : Timer;
  localRemaining : Z;
  lastSyncTime : Z;
  lastSyncRemaining : Z;
  lastUpdate : option Z
}.

(** Body of the first effect, deps [[timer.remaining_seconds]]. *)
Definition sync_effect (now : Z) (st : State) : State :=
  mkState (timer st)
          (remaining_seconds (timer st))
          now
          (remaining_seconds (timer st))
          (lastUpdate st).

(** Cleanup of the second effect: cancel the scheduled frame. *)
Definition countdown_cleanup (st : State) : State :=
  mkState (timer st) (localRemaining st) (lastSyncTime st)
          (lastSyncRemaining st) None.

(** Body of the second effect, deps [[timer.status]]. *)
Definition countdown_effect (now : Z) (st : State) : State :=
  match status (timer st) with
  | active =>
      mkState (timer st) (localRemaining st) (lastSyncTime st)
              (lastSyncRemaining st) (Some now)
  | _ => countdown_cleanup st
  end.

(** First render and commit at clock reading [now]: the hooks are
    initialised from the props and both effects run. *)
Definition mount (now : Z) (t : Timer) : State :=
  countdown_effect now
    (sync_effect now
       (mkState t (remaining_seconds t) now (remaining_seconds t) None)).

(** Re-render with new props [t] at clock reading [now] (the parent
    received a snapshot and rendered this card, same key, again): an
    effect runs only if one of its deps changed. *)
Definition rerender (now : Z) (t : Timer) (st : State) : State :=
  let st1 := mkState t (localRemaining st) (lastSyncTime st)
                     (lastSyncRemaining st) (lastUpdate st) in
  let st2 := if remaining_seconds t =? remaining_seconds (timer st)
             then st1 else sync_effect now st1 in
  if Status_eqb (status t) (status (timer st))
  then st2 else countdown_effect now (countdown_cleanup st2).

(** One run of the frame callback at clock reading [now].  Without a
    scheduled loop no callback runs. *)
Definition updateCountdown (now : Z) (st : State) : State :=
  match lastUpdate st with
  | None => st
  | Some lastUpdate =>
      if 250 <=? now - lastUpdate then
        let elapsed := (now - lastSyncTime st) / 1000 in
        let calculated := lastSyncRemaining st - elapsed in
        mkState (timer st)
                (if 0 <=? calculated then calculated else 0)
                (lastSyncTime st) (lastSyncRemaining st) (Some now)
      else st
  end.

(** The text of the card's [timer-time] element. *)
Definition display (st : State) : jsstring := formatTime (localRemaining st).

(** What happens to a mounted card. *)
Inductive event : Type :=
| Snapshot (now : Z) (t : Timer)
| Frame (now : Z).

Definition step (st : State) (ev : event) : State :=
  match ev with
  | Snapshot now t => rerender now t st
  | Frame now => updateCountdown now st
  end.

Definition run (evs : list event) (st : State) : State :=
  fold_left step evs st.

Definition is_frame (ev : event) : bool :=
  match ev with
  | Frame _ => true
  | Snapshot _ _ => false
  end.

End TimerCard.

(* ================================================================== *)
(** ** App.tsx: App *)

Module App.

Record State : Type := mkState {
  timers : json;
  error : jsstring;
  formData : TimerCreate
}.

Definition init : State :=
  mkState (JArr []) [] (mkTimerCreate [] 5 0).

Definition setTimers (v : json) (st : State) : State :=
  mkState v (error st) (formData st).

Definition setError (e : jsstring) (st : State) : State :=
  mkState (timers st) e (formData st).

Definition setFormData (d : TimerCreate) (st : State) : State :=
  mkState (timers st) (error st) d.

Section Handlers.

Variable fetch : ApiClient.Request -> ApiClient.fetch_outcome.

Definition loadTimers (st : State) : State * list ApiClient.Request :=
  let '(reqs, r) := ApiClient.getTimers fetch in
  match r with
  | Ok data => (setError [] (setTimers data st), reqs)
  | Throw _ => (setError (lit "Failed to load timers") st, reqs)
  end.

Definition handleCreate (st : State) : State * list ApiClient.Request :=
  if str_eqb (trim (tc_name (formData st))) [] then
    (setError (lit "Please enter timer name") st, [])
  else if (minutes (formData st) =? 0) && (seconds (formData st) =? 0) then
    (setError (lit "Time cannot be 0") st, [])
  else
    let '(reqs, r) := ApiClient.createTimer fetch (formData st) in
    match r with
    | Ok _ => (setError [] (setFormData (mkTimerCreate [] 5 0) st), reqs)
    | Throw err =>
        (setError (Js.str_or (message err) (lit "Failed to create timer")) st,
         reqs)
    end.

Definition handleAdjust (id : jsstring) (secs : Z) (st : State)
  : State * list ApiClient.Request :=
  let '(reqs, r) := ApiClient.adjustTimer fetch id secs in
  match r with
  | Ok _ => (setError [] st, reqs)
  | Throw err =>
      (setError (Js.str_or (message err) (lit "Failed to adjust timer")) st,
       reqs)
  end.

Definition handleRestart (id : jsstring) (st : State)
  : State * list ApiClient.Request :=
  let '(reqs, r) := ApiClient.restartTimer fetch id in
  match r with
  | Ok _ => (setError [] st, reqs)
  | Throw err =>
      (setError (Js.str_or (message err) (lit "Failed to restart timer")) st,
       reqs)
  end.

(** [confirmed] is the user's answer to the [confirm] dialog. *)
Definition handleDelete (confirmed : bool) (id : jsstring) (st : State)
  : State * list ApiClient.Request :=
  if negb confirmed then (st, [])
  else
    let '(reqs, r) := ApiClient.deleteTimer fetch id in
    match r with
    | Ok _ => (setError [] st, reqs)
    | Throw err =>
        (setError (Js.str_or (message err) (lit "Failed to delete timer")) st,
         reqs)
    end.

End Handlers.

(** [t.status === "active" || t.status === "completed"] *)
Definition shown (t : json) : result bool :=
  s <- Js.get_prop t (lit "status") ;;
  Ok (Js.strict_eq_str s (lit "active") || Js.strict_eq_str s (lit "completed")).

(** The list the cards are rendered from, one card per element. *)
Definition displayTimers (timers : json) : result (list json) :=
  match timers with
  | JArr items => Js.filter shown items
  | _ => Ok []
  end.

(** The same selection on well-formed timers. *)
Definition shown_status (t : Timer) : bool :=
  match status t with
  | active | completed => true
  | deleted => false
  end.

End App.

(* ================================================================== *)
(** ** ws.ts: WebSocketClient *)

Module WebSocketClient.

Record Location : Type := mkLocation { protocol : jsstring; host : jsstring }.

Section Client.

(** What the registered handlers act on (for the panel, [App.State]). *)
Variable World : Type.

Definition MessageHandler : Type := json -> World -> World.

(** [ws] holds the URL of the current socket.  [reconnectTimer] is
    [Some d] while a reconnect timeout is pending, [d] being the delay
    it was armed with. *)
Record State : Type := mkState {
  ws : option jsstring;
  handlers : list MessageHandler;
  reconnectTimer : option Z;
  reconnectDelay : Z
}.

Definition init : State := mkState None [] None 1000.

Definition scheduleReconnect (c : State) : State :=
  match reconnectTimer c with
  | Some _ => c
  | None =>
      mkState (ws c) (handlers c) (Some (reconnectDelay c)) (reconnectDelay c)
  end.

(** [constructor_throws]: whether [new WebSocket(wsUrl)] throws. *)
Definition connect (loc : Location) (constructor_throws : bool) (c : State)
  : State :=
  let protocol :=
    if str_eqb (protocol loc) (lit "https:") then lit "wss:" else lit "ws:" in
  let wsUrl := protocol ++ lit "//" ++ host loc ++ lit "/ws" in
  if constructor_throws then scheduleReconnect c
  else mkState (Some wsUrl) (handlers c) (reconnectTimer c) (reconnectDelay c).

Definition onopen (c : State) : State :=
  mkState (ws c) (handlers c) (reconnectTimer c) 1000.

(** The handlers run in registration order on the forwarded value. *)
Definition forward (v : json) (c : State) (w : World) : World :=
  fold_left (fun w handler => handler v w) (handlers c) w.

(** [frame] is what [JSON.parse(event.data)] comes to.  Every
    exception raised inside the [try] is logged and dropped. *)
Definition onmessage (frame : json_outcome) (c : State) (w : World) : World :=
  match frame with
  | Unparseable _ => w
  | Parsed data =>
      match Js.get_prop data (lit "type") with
      | Throw _ => w
      | Ok type =>
          if Js.strict_eq_str type (lit "state_update") then
            match Js.get_prop data (lit "timers") with
            | Throw _ => w
            | Ok None => w
            | Ok (Some timers) =>
                if Js.truthy (Some timers) then forward timers c w else w
            end
          else w
      end
  end.

Definition onerror (c : State) : State := c.

Definition onclose (c : State) : State := scheduleReconnect c.

(** The pending timeout fires. *)
Definition reconnect_fired (loc : Location) (constructor_throws : bool)
    (c : State) : State :=
  match reconnectTimer c with
  | None => c
  | Some _ =>
      connect loc constructor_throws
        (mkState (ws c) (handlers c) None
                 (Z.min (reconnectDelay c * 2) 30000))
  end.

Definition onMessage (handler : MessageHandler) (c : State) : State :=
  mkState (ws c) (handlers c ++ [handler]) (reconnectTimer c)
          (reconnectDelay c).

Definition disconnect (c : State) : State :=
  mkState None (handlers c) None (reconnectDelay c).

(** One failed attempt: the socket closes without having opened, and
    the timeout armed by [onclose] then fires and connects again. *)
Definition failed_attempt (loc : Location) (c : State) : State :=
  reconnect_fired loc false (onclose (onerror c)).

End Client.

Arguments ws {World} s.
Arguments handlers {World} s.
Arguments reconnectTimer {World} s.
Arguments reconnectDelay {World} s.
Arguments init {World}.
Arguments scheduleReconnect {World} c.
Arguments connect {World} loc constructor_throws c.
Arguments onopen {World} c.
Arguments forward {World} v c w.
Arguments onmessage {World} frame c w.
Arguments onerror {World} c.
Arguments onclose {World} c.
Arguments reconnect_fired {World} loc constructor_throws c.
Arguments onMessage {World} handler c.
Arguments disconnect {World} c.
Arguments failed_attempt {World} loc c.

End WebSocketClient.

(** The handler [App] registers: [(updatedTimers) => setTimers(updatedTimers)]. *)
Definition App_onMessage : WebSocketClient.MessageHandler App.State :=
  App.setTimers.

(* ================================================================== *)
(** ** Auxiliary definitions used by the proofs *)

(** The [n] consecutive integers from [lo]. *)
Definition Zrange (lo : Z) (n : nat) : list Z :=
  map (fun i => lo + Z.of_nat i) (seq 0 n).

(** Two decimal digits. *)
Definition two_digits (n : Z) : jsstring := [digit (n / 10); digit (n mod 10)].

(** A card state reached from a mount by snapshots and frames. *)
Definition card_after (now0 : Z) (t : Timer) (evs : list TimerCard.event)
  : TimerCard.State :=
  TimerCard.run evs (TimerCard.mount now0 t).

(** The timer of the end-to-end scenario, with [r] seconds remaining. *)
Definition timer_a (r : Z) : Timer :=
  mkTimer (lit "a") (lit "a") r 125 active None.

(** [n] frame callbacks, one every [period] milliseconds after [from]. *)
Definition frames_every (period from : Z) (n : nat) : list TimerCard.event :=
  map (fun k => TimerCard.Frame (from + period * k)) (Zrange 1 n).

(** The animation loop runs exactly while the card's timer is active. *)
Definition loop_inv (st : TimerCard.State) : Prop :=
  match status (TimerCard.timer st) with
  | active => exists u, TimerCard.lastUpdate st = Some u
  | _ => TimerCard.lastUpdate st = None
  end.

(** The client after [n] failed attempts in a row. *)
Definition after_failures {World : Type} (loc : WebSocketClient.Location)
    (n : nat) (c : WebSocketClient.State World) : WebSocketClient.State World :=
  Nat.iter n (WebSocketClient.failed_attempt loc) c.

(** The delay armed by the close of the current socket. *)
Definition next_delay {World : Type} (c : WebSocketClient.State World)
  : option Z :=
  WebSocketClient.reconnectTimer
    (WebSocketClient.onclose (WebSocketClient.onerror c)).

(** A network that answers every request with the same response. *)
Definition always (response : ApiClient.Response)
  : ApiClient.Request -> ApiClient.fetch_outcome :=
  fun _ => ApiClient.Responded response.

(** A 404 with a structured error body. *)
Definition not_found : ApiClient.Response :=
  ApiClient.mkResponse 404
    (Parsed (JObj [ (lit "detail", JStr (lit "Timer not found")) ])).

(** The selection [App.shown] makes on an element that is not [null]. *)
Definition shownb (t : json) : bool :=
  match t with
  | JObj fields =>
      Js.strict_eq_str (Js.lookup (lit "status") fields) (lit "active")
      || Js.strict_eq_str (Js.lookup (lit "status") fields) (lit "completed")
  | _ => false
  end.

(** A [state_update] frame carrying [v] as its [timers] field. *)
Definition state_update (v : json) : json :=
  JObj [ (lit "type", JStr (lit "state_update")); (lit "timers", v) ].

(** The panel's transport client once [App] has mounted. *)
Definition panel_client : WebSocketClient.State App.State :=
  WebSocketClient.onMessage App_onMessage
    (WebSocketClient.connect
       (WebSocketClient.mkLocation (lit "https:") (lit "example.org"))
       false WebSocketClient.init).

(** Frame callbacks at the given clock readings. *)
Definition frames_at (times : list Z) : list TimerCard.event :=
  map TimerCard.Frame times.

(** The clock readings [times] never go back, starting from [lo]. *)
Fixpoint ascending (lo : Z) (times : list Z) : Prop :=
  match times with
  | [] => True
  | t :: rest => lo <= t /\ ascending t rest
  end.

(** The displayed value is the one the anchor gives for clock reading
    [tau]. *)
Definition on_curve (st : TimerCard.State) (tau : Z) : Prop :=
  TimerCard.localRemaining st
    = Z.max 0 (TimerCard.lastSyncRemaining st
               - (tau - TimerCard.lastSyncTime st) / 1000).

(** The code unit is a decimal digit. *)
Definition is_digit (c : N) : bool := (48 <=? c)%N && (c <=? 57)%N.

(** The ASCII text a string of code units spells. *)
Definition unlit (s : jsstring) : string :=
  string_of_list_ascii (map ascii_of_N s).

(** The number a string of decimal digits denotes. *)
Definition decimal_value (s : jsstring) : option Z :=
  option_map Z.of_uint (NilEmpty.uint_of_string (unlit s)).

(** What can happen to the transport client: calls of its methods, the
    socket's events, and the pending reconnect timeout firing. *)
Inductive ws_event : Type :=
| EvConnect (constructor_throws : bool)
| EvOpen
| EvError
| EvClose
| EvReconnect (constructor_throws : bool)
| EvDisconnect.

Definition ws_step {World : Type} (loc : WebSocketClient.Location)
    (c : WebSocketClient.State World) (ev : ws_event)
  : WebSocketClient.State World :=
  match ev with
  | EvConnect throws => WebSocketClient.connect loc throws c
  | EvOpen => WebSocketClient.onopen c
  | EvError => WebSocketClient.onerror c
  | EvClose => WebSocketClient.onclose c
  | EvReconnect throws => WebSocketClient.reconnect_fired loc throws c
  | EvDisconnect => WebSocketClient.disconnect c
  end.

Definition ws_run {World : Type} (loc : WebSocketClient.Location)
    (evs : list ws_event) (c : WebSocketClient.State World)
  : WebSocketClient.State World :=
  fold_left (ws_step loc) evs c.

(** The [k]-th value of the backoff. *)
Definition backoff (k : nat) : Z := Z.min (1000 * 2 ^ Z.of_nat k) 30000.

(** Every delay the client holds is a value of the backoff. *)
Definition backoff_inv {World : Type} (c : WebSocketClient.State World) : Prop :=
  (exists k, WebSocketClient.reconnectDelay c = backoff k) /\
  (forall d, WebSocketClient.reconnectTimer c = Some d -> exists k, d = backoff k).

(** [onMessage] called with each handler of [hs] in turn. *)
Definition register_all {World : Type}
    (hs : list (WebSocketClient.MessageHandler World))
    (c : WebSocketClient.State World) : WebSocketClient.State World :=
  fold_left (fun c h => WebSocketClient.onMessage h c) hs c.

(** A network on which every request fails to reach the server. *)
Definition unreachable (e : exn)
  : ApiClient.Request -> ApiClient.fetch_outcome :=
  fun _ => ApiClient.Rejected e.

(** The value is a JSON object. *)
Definition is_object (v : json) : bool :=
  match v with
  | JObj _ => true
  | _ => false
  end.

(** The default creation draft. *)
Definition default_draft : TimerCreate := mkTimerCreate [] 5 0.

(** A 201 carrying the created timer. *)
Definition created : ApiClient.Response :=
  ApiClient.mkResponse 201 (Parsed (Timer_json (timer_a 300))).

(** A 204 with an empty body, which is not JSON. *)
Definition no_content : ApiClient.Response :=
  ApiClient.mkResponse 204 (Unparseable (lit "Unexpected end of JSON input")).

(** A 422 whose [detail] is a validation report of two entries. *)
Definition validation_report : ApiClient.Response :=
  ApiClient.mkResponse 422
    (Parsed (JObj [ (lit "detail",
                     JArr [ JObj [ (lit "msg", JStr (lit "field required")) ];
                            JObj [ (lit "msg", JStr (lit "value too large")) ] ]) ])).

(** A state whose draft is [d]. *)
Definition drafting (d : TimerCreate) : App.State :=
  App.setFormData d App.init.

(* ================================================================== *)
(** * Properties *)

(** ** Strings and ranges *)

Lemma str_eqb_eq (a b : jsstring) : str_eqb a b = true <-> a = b.
Proof.
  revert b; induction a as [|x a IH]; intros [|y b]; simpl;
    try (split; [discriminate | discriminate]); try tauto.
  rewrite andb_true_iff, N.eqb_eq, IH.
  split; [intros [-> ->]; reflexivity | intros E; injection E; auto].
Qed.

Lemma str_eqb_refl (a : jsstring) : str_eqb a a = true.
Proof. apply str_eqb_eq; reflexivity. Qed.

Lemma Zrange_In (lo : Z) (n : nat) (x : Z) :
  lo <= x < lo + Z.of_nat n -> In x (Zrange lo n).
Proof.
  intros H. unfold Zrange. apply in_map_iff.
  exists (Z.to_nat (x - lo)). split; [lia|].
  apply in_seq. lia.
Qed.

Lemma forallb_Zrange (P : Z -> bool) (lo : Z) (n : nat) :
  forallb P (Zrange lo n) = true ->
  forall x, lo <= x < lo + Z.of_nat n -> P x = true.
Proof.
  intros H x Hx. rewrite forallb_forall in H. apply H, Zrange_In, Hx.
Qed.

(** ** formatTime *)

Lemma padStart_two_digits (n : Z) :
  0 <= n < 100 -> padStart 2 (digit 0) (toString n) = two_digits n.
Proof.
  intros H. apply str_eqb_eq.
  apply (forallb_Zrange
           (fun n => str_eqb (padStart 2 (digit 0) (toString n)) (two_digits n))
           0 100); [vm_compute; reflexivity | lia].
Qed.

Lemma toString_small (n : Z) :
  0 <= n < 100 ->
  toString n = if n <? 10 then [digit n] else two_digits n.
Proof.
  intros H. apply str_eqb_eq.
  apply (forallb_Zrange
           (fun n => str_eqb (toString n)
                       (if n <? 10 then [digit n] else two_digits n))
           0 100); [vm_compute; reflexivity | lia].
Qed.

Lemma formatTime_refill (s : Z) : s <= 0 -> formatTime s = lit "REFILL".
Proof.
  intros H. unfold formatTime.
  destruct (s <=? 0) eqn:E; [reflexivity | apply Z.leb_gt in E; lia].
Qed.

Lemma formatTime_bare (s : Z) : 1 <= s <= 60 -> formatTime s = toString s.
Proof.
  intros H. unfold formatTime.
  destruct (s <=? 0) eqn:E0; [apply Z.leb_le in E0; lia|].
  destruct (s <=? 60) eqn:E1; [reflexivity | apply Z.leb_gt in E1; lia].
Qed.

Lemma formatTime_mmss (s : Z) :
  60 < s ->
  formatTime s =
    padStart 2 (digit 0) (toString (s / 60)) ++ lit ":" ++ two_digits (s mod 60).
Proof.
  intros H. unfold formatTime.
  destruct (s <=? 0) eqn:E0; [apply Z.leb_le in E0; lia|].
  destruct (s <=? 60) eqn:E1; [apply Z.leb_le in E1; lia|].
  cbv zeta. rewrite Z.rem_mod_nonneg by lia.
  rewrite (padStart_two_digits (s mod 60)); [reflexivity|].
  pose proof (Z.mod_pos_bound s 60); lia.
Qed.

(** C3. The display formatter returns the sentinel REFILL for an input of
    zero or below, the bare decimal integer for an input from 1 to 60, and
    zero-padded minutes, a colon and two-digit seconds for an input above
    60 (exactly MM:SS below 6000 seconds); 0, 45, 60, 61 and 125 are
    rendered as REFILL, 45, 60, 01:01 and 02:05. *)
Theorem formatTime_policy (s : Z) :
  (s <= 0 -> formatTime s = lit "REFILL") /\
  (1 <= s <= 60 ->
     formatTime s = toString s /\
     formatTime s = if s <? 10 then [digit s] else two_digits s) /\
  (60 < s ->
     formatTime s =
       padStart 2 (digit 0) (toString (s / 60)) ++ lit ":" ++ two_digits (s mod 60)) /\
  (60 < s < 6000 ->
     formatTime s = two_digits (s / 60) ++ lit ":" ++ two_digits (s mod 60)) /\
  formatTime 0 = lit "REFILL" /\
  formatTime 45 = lit "45" /\
  formatTime 60 = lit "60" /\
  formatTime 61 = lit "01:01" /\
  formatTime 125 = lit "02:05".
Proof.
  split; [apply formatTime_refill|].
  split.
  { intros H. rewrite formatTime_bare by exact H.
    split; [reflexivity | apply toString_small; lia]. }
  split; [apply formatTime_mmss|].
  split.
  { intros H. rewrite formatTime_mmss by lia.
    rewrite padStart_two_digits; [reflexivity|].
    split; [apply Z.div_pos; lia | apply Z.div_lt_upper_bound; lia]. }
  repeat split; vm_compute; reflexivity.
Qed.

Lemma formatTime_policy_witness :
  formatTime (-3) = lit "REFILL" /\
  formatTime 7 = [digit 7] /\
  formatTime 6125 =
    padStart 2 (digit 0) (toString 102) ++ lit ":" ++ two_digits 5 /\
  formatTime 3599 = two_digits 59 ++ lit ":" ++ two_digits 59.
Proof.
  split; [apply (proj1 (formatTime_policy (-3))); lia|].
  split; [apply (proj1 (proj2 (formatTime_policy 7))); lia|].
  split; [apply (proj1 (proj2 (proj2 (formatTime_policy 6125)))); lia|].
  apply (proj1 (proj2 (proj2 (proj2 (formatTime_policy 3599))))); lia.
Defined.

(** ** TimerCard: the countdown between snapshots *)

Import TimerCard.

Lemma formatTime_clamp (r : Z) : formatTime (Z.max 0 r) = formatTime r.
Proof.
  destruct (Z.max_spec 0 r) as [[H ->]|[H ->]]; [reflexivity|].
  rewrite (formatTime_refill r) by lia. reflexivity.
Qed.

Lemma clamp_max (c : Z) : (if 0 <=? c then c else 0) = Z.max 0 c.
Proof. destruct (0 <=? c) eqn:E; [apply Z.leb_le in E | apply Z.leb_gt in E]; lia. Qed.

Lemma loop_inv_mount (now : Z) (t : Timer) : loop_inv (mount now t).
Proof.
  unfold loop_inv, mount, countdown_effect, sync_effect; simpl.
  destruct (status t) eqn:E; simpl; rewrite E; eauto.
Qed.

Lemma loop_inv_rerender (now : Z) (t : Timer) (st : State) :
  loop_inv st -> loop_inv (rerender now t st).
Proof.
  unfold loop_inv, rerender, countdown_effect, countdown_cleanup, sync_effect.
  intros H.
  destruct (remaining_seconds t =? remaining_seconds (timer st));
    destruct (status t) eqn:Et, (status (timer st)) eqn:Es; simpl in *;
    repeat (rewrite Et; simpl); eauto.
Qed.

Lemma loop_inv_updateCountdown (now : Z) (st : State) :
  loop_inv st -> loop_inv (updateCountdown now st).
Proof.
  unfold loop_inv, updateCountdown. intros H.
  destruct (lastUpdate st) as [u|] eqn:E; [|rewrite E; exact H].
  destruct (250 <=? now - u); simpl; [|rewrite E; exact H].
  destruct (status (timer st)); [eauto | discriminate | discriminate].
Qed.

Lemma loop_inv_run (evs : list event) (st : State) :
  loop_inv st -> loop_inv (run evs st).
Proof.
  unfold run. revert st.
  induction evs as [|[now t|now] evs IH]; intros st H; simpl; [exact H| |];
    apply IH; [apply loop_inv_rerender | apply loop_inv_updateCountdown]; exact H.
Qed.

Lemma updateCountdown_due (now u : Z) (st : State) :
  lastUpdate st = Some u -> 250 <= now - u ->
  updateCountdown now st =
    mkState (timer st)
            (Z.max 0 (lastSyncRemaining st - (now - lastSyncTime st) / 1000))
            (lastSyncTime st) (lastSyncRemaining st) (Some now).
Proof.
  intros E H. unfold updateCountdown. rewrite E.
  destruct (250 <=? now - u) eqn:G; [|apply Z.leb_gt in G; lia].
  rewrite clamp_max. reflexivity.
Qed.

Lemma updateCountdown_early (now u : Z) (st : State) :
  lastUpdate st = Some u -> now - u < 250 -> updateCountdown now st = st.
Proof.
  intros E H. unfold updateCountdown. rewrite E.
  destruct (250 <=? now - u) eqn:G; [apply Z.leb_le in G; lia | reflexivity].
Qed.

(** C1. For an active timer the animation loop is running, and each tick
    of it (a frame callback at least 250 ms after the previous update)
    sets the displayed value to
    max(0, syncedRemaining - floor((now - syncedAt) / 1000)), leaving the
    anchor untouched; a frame callback arriving earlier changes nothing.
    An anchor of 125 seconds shows 02:05 at once, 01:35 after 30 seconds
    of frames without a snapshot, and 10 as soon as a snapshot with 10
    remaining seconds arrives. *)
Theorem countdown_tick (now0 : Z) (t : Timer) (evs : list event) (now : Z) :
  let st := card_after now0 t evs in
  status (timer st) = active ->
  (exists u, lastUpdate st = Some u) /\
  (forall u, lastUpdate st = Some u -> 250 <= now - u ->
     let st' := updateCountdown now st in
     localRemaining st'
       = Z.max 0 (lastSyncRemaining st - (now - lastSyncTime st) / 1000) /\
     display st'
       = formatTime (Z.max 0 (lastSyncRemaining st - (now - lastSyncTime st) / 1000)) /\
     lastSyncTime st' = lastSyncTime st /\
     lastSyncRemaining st' = lastSyncRemaining st) /\
  (forall u, lastUpdate st = Some u -> now - u < 250 ->
     updateCountdown now st = st) /\
  display (mount now0 (timer_a 125)) = lit "02:05" /\
  display (card_after 1700000000000 (timer_a 125)
             (frames_every 250 1700000000000 120)) = lit "01:35" /\
  display (card_after 1700000000000 (timer_a 125)
             (frames_every 250 1700000000000 120
                ++ [Snapshot 1700000030100 (timer_a 10)])) = lit "10".
Proof.
  intros st Hact.
  assert (Hinv : loop_inv st) by apply loop_inv_run, loop_inv_mount.
  unfold loop_inv in Hinv. rewrite Hact in Hinv.
  split; [exact Hinv|].
  split.
  { intros u E H. cbv zeta. rewrite (updateCountdown_due now u st E H).
    unfold display. simpl. repeat split; reflexivity. }
  split; [intros u E H; apply (updateCountdown_early now u st E H)|].
  split; [reflexivity|].
  split; vm_compute; reflexivity.
Qed.

Lemma countdown_tick_witness :
  localRemaining (updateCountdown 30000 (card_after 0 (timer_a 125) []))
    = Z.max 0 (125 - (30000 - 0) / 1000) /\
  updateCountdown 100 (card_after 0 (timer_a 125) [])
    = card_after 0 (timer_a 125) [].
Proof.
  pose proof (countdown_tick 0 (timer_a 125) [] 30000 eq_refl) as [_ [H _]].
  pose proof (countdown_tick 0 (timer_a 125) [] 100 eq_refl) as [_ [_ [G _]]].
  split.
  - apply (H 0 eq_refl); lia.
  - apply (G 0 eq_refl); lia.
Defined.

(** ** TimerCard: reconciliation with a snapshot *)

Lemma rerender_changed (now : Z) (S : Timer) (st : State) :
  remaining_seconds S <> remaining_seconds (timer st) ->
  localRemaining (rerender now S st) = remaining_seconds S /\
  lastSyncTime (rerender now S st) = now /\
  lastSyncRemaining (rerender now S st) = remaining_seconds S.
Proof.
  intros H. unfold rerender.
  destruct (remaining_seconds S =? remaining_seconds (timer st)) eqn:E;
    [apply Z.eqb_eq in E; contradiction|].
  destruct (Status_eqb (status S) (status (timer st)));
    [simpl; auto|].
  unfold countdown_effect, countdown_cleanup, sync_effect; simpl.
  destruct (status S); simpl; auto.
Qed.

Lemma rerender_unchanged (now : Z) (S : Timer) (st : State) :
  remaining_seconds S = remaining_seconds (timer st) ->
  localRemaining (rerender now S st) = localRemaining st /\
  lastSyncTime (rerender now S st) = lastSyncTime st /\
  lastSyncRemaining (rerender now S st) = lastSyncRemaining st.
Proof.
  intros H. unfold rerender. rewrite H, Z.eqb_refl.
  destruct (Status_eqb (status S) (status (timer st)));
    [simpl; auto|].
  unfold countdown_effect, countdown_cleanup; simpl.
  destruct (status S); simpl; auto.
Qed.

Lemma mount_anchor (now : Z) (S : Timer) :
  localRemaining (mount now S) = remaining_seconds S /\
  lastSyncTime (mount now S) = now /\
  lastSyncRemaining (mount now S) = remaining_seconds S.
Proof.
  unfold mount, countdown_effect, countdown_cleanup, sync_effect; simpl.
  destruct (status S); simpl; auto.
Qed.

(** C2, as stated, fails: a snapshot that repeats the remaining seconds
    the card already holds does not touch the display.  Mounted with 125,
    ticked down to 95 after 30 seconds, the card still shows 01:35 after a
    second snapshot with 125, not 02:05. *)
Lemma snapshot_display_counterexample :
  status (timer_a 125) = active /\
  display (card_after 0 (timer_a 125) [Frame 30000; Snapshot 30500 (timer_a 125)])
    = lit "01:35" /\
  display (card_after 0 (timer_a 125) [Frame 30000; Snapshot 30500 (timer_a 125)])
    <> formatTime (Z.max 0 (remaining_seconds (timer_a 125))).
Proof.
  split; [reflexivity|]. split; [vm_compute; reflexivity|].
  vm_compute. discriminate.
Qed.

(** C2, amended. For every snapshot S whose remaining seconds differ from
    those the card last received, and at the card's first render, the
    displayed text right after reconciliation is that of
    max(0, S.remaining_seconds), REFILL when S.remaining_seconds is
    negative (the state cell itself holds S.remaining_seconds unclamped);
    a snapshot repeating the previous remaining seconds leaves the
    displayed value as it was. *)
Theorem snapshot_display (st : State) (now : Z) (S : Timer) :
  (remaining_seconds S <> remaining_seconds (timer st) ->
     localRemaining (rerender now S st) = remaining_seconds S /\
     display (rerender now S st) = formatTime (Z.max 0 (remaining_seconds S))) /\
  (remaining_seconds S = remaining_seconds (timer st) ->
     display (rerender now S st) = display st) /\
  display (mount now S) = formatTime (Z.max 0 (remaining_seconds S)) /\
  (remaining_seconds S < 0 ->
     formatTime (Z.max 0 (remaining_seconds S)) = lit "REFILL").
Proof.
  split.
  { intros H. destruct (rerender_changed now S st H) as [E _].
    split; [exact E|]. unfold display. rewrite E, formatTime_clamp. reflexivity. }
  split.
  { intros H. destruct (rerender_unchanged now S st H) as [E _].
    unfold display. rewrite E. reflexivity. }
  split.
  { destruct (mount_anchor now S) as [E _].
    unfold display. rewrite E, formatTime_clamp. reflexivity. }
  intros H. apply formatTime_refill. lia.
Qed.

Lemma snapshot_display_witness :
  display (rerender 30500 (timer_a (-4))
             (card_after 0 (timer_a 125) [Frame 30000]))
    = formatTime (Z.max 0 (-4)) /\
  display (rerender 30500 (timer_a 125)
             (card_after 0 (timer_a 125) [Frame 30000]))
    = display (card_after 0 (timer_a 125) [Frame 30000]) /\
  formatTime (Z.max 0 (remaining_seconds (timer_a (-4)))) = lit "REFILL".
Proof.
  split.
  - apply (proj1 (snapshot_display
                    (card_after 0 (timer_a 125) [Frame 30000]) 30500 (timer_a (-4)))).
    vm_compute. discriminate.
  - split.
    + apply (proj1 (proj2 (snapshot_display
                    (card_after 0 (timer_a 125) [Frame 30000]) 30500 (timer_a 125)))).
      reflexivity.
    + apply (proj2 (proj2 (proj2 (snapshot_display
                    (card_after 0 (timer_a 125) []) 0 (timer_a (-4)))))).
      simpl. lia.
Defined.

(** C5, as stated, fails: a snapshot whose remaining seconds equal the
    previous ones leaves the anchor where it was.  Mounted at time 0, the
    card that receives the same 125 seconds again at time 5000 keeps
    syncedAt = 0. *)
Lemma anchor_overwritten_counterexample :
  lastSyncTime (rerender 5000 (timer_a 125) (mount 0 (timer_a 125))) = 0 /\
  lastSyncTime (rerender 5000 (timer_a 125) (mount 0 (timer_a 125))) <> 5000.
Proof. split; [reflexivity | vm_compute; discriminate]. Qed.

(** C5, amended. When a timer first appears, and on every later snapshot
    whose remaining seconds differ from the previous snapshot's, the
    anchor is overwritten: syncedAt becomes the current local time and
    syncedRemaining the snapshot's remaining seconds.  A snapshot whose
    remaining seconds equal the previous ones leaves the anchor
    unchanged. *)
Theorem anchor_overwritten (st : State) (now : Z) (S : Timer) :
  (lastSyncTime (mount now S) = now /\
   lastSyncRemaining (mount now S) = remaining_seconds S) /\
  (remaining_seconds S <> remaining_seconds (timer st) ->
     lastSyncTime (rerender now S st) = now /\
     lastSyncRemaining (rerender now S st) = remaining_seconds S) /\
  (remaining_seconds S = remaining_seconds (timer st) ->
     lastSyncTime (rerender now S st) = lastSyncTime st /\
     lastSyncRemaining (rerender now S st) = lastSyncRemaining st).
Proof.
  split; [apply mount_anchor|].
  split; intros H.
  - apply (rerender_changed now S st H).
  - apply (rerender_unchanged now S st H).
Qed.

Lemma anchor_overwritten_witness :
  (lastSyncTime (rerender 5000 (timer_a 120) (mount 0 (timer_a 125))) = 5000 /\
   lastSyncRemaining (rerender 5000 (timer_a 120) (mount 0 (timer_a 125)))
     = remaining_seconds (timer_a 120)) /\
  (lastSyncTime (rerender 5000 (timer_a 125) (mount 0 (timer_a 125)))
     = lastSyncTime (mount 0 (timer_a 125)) /\
   lastSyncRemaining (rerender 5000 (timer_a 125) (mount 0 (timer_a 125)))
     = lastSyncRemaining (mount 0 (timer_a 125))).
Proof.
  split.
  - apply (proj1 (proj2 (anchor_overwritten (mount 0 (timer_a 125)) 5000 (timer_a 120)))).
    vm_compute. discriminate.
  - apply (proj2 (proj2 (anchor_overwritten (mount 0 (timer_a 125)) 5000 (timer_a 125)))).
    reflexivity.
Defined.

(** ** TimerCard: a repeated snapshot *)

Lemma Status_eqb_refl (s : Status) : Status_eqb s s = true.
Proof. destruct s; reflexivity. Qed.

Lemma rerender_same (now : Z) (st : State) : rerender now (timer st) st = st.
Proof.
  unfold rerender. rewrite Z.eqb_refl, Status_eqb_refl.
  destruct st; reflexivity.
Qed.

Lemma timer_rerender (now : Z) (S : Timer) (st : State) :
  timer (rerender now S st) = S.
Proof.
  unfold rerender, countdown_effect, countdown_cleanup, sync_effect.
  destruct (remaining_seconds S =? remaining_seconds (timer st));
    destruct (Status_eqb (status S) (status (timer st))); simpl;
    try reflexivity; destruct (status S); reflexivity.
Qed.

Lemma timer_mount (now : Z) (S : Timer) : timer (mount now S) = S.
Proof.
  unfold mount, countdown_effect, countdown_cleanup, sync_effect; simpl.
  destruct (status S); reflexivity.
Qed.

Lemma timer_updateCountdown (now : Z) (st : State) :
  timer (updateCountdown now st) = timer st.
Proof.
  unfold updateCountdown.
  destruct (lastUpdate st) as [u|]; [|reflexivity].
  destruct (250 <=? now - u); reflexivity.
Qed.

Lemma timer_run_frames (frames : list event) (st : State) :
  forallb is_frame frames = true -> timer (run frames st) = timer st.
Proof.
  unfold run. revert st.
  induction frames as [|[now t|now] frames IH]; intros st H; simpl in *;
    [reflexivity | discriminate |].
  rewrite IH by exact H. apply timer_updateCountdown.
Qed.

(** C6. Receiving the same snapshot twice in a row (with any number of
    frame callbacks in between, and whether the first one mounted the card
    or updated it) is idempotent: the duplicate leaves the card's whole
    state, hence its displayed value now and after any later events, as it
    would have been had the duplicate not arrived. *)
Theorem duplicate_snapshot_idempotent
    (st : State) (S : Timer) (now1 now2 : Z) (frames later : list event) :
  forallb is_frame frames = true ->
  let updated := run frames (rerender now1 S st) in
  let mounted := run frames (mount now1 S) in
  rerender now2 S updated = updated /\
  display (rerender now2 S updated) = display updated /\
  display (run later (rerender now2 S updated)) = display (run later updated) /\
  rerender now2 S mounted = mounted /\
  display (run later (rerender now2 S mounted)) = display (run later mounted).
Proof.
  intros Hf updated mounted.
  assert (Eu : rerender now2 S updated = updated).
  { replace S with (timer updated) at 1; [apply rerender_same|].
    unfold updated. rewrite timer_run_frames by exact Hf. apply timer_rerender. }
  assert (Em : rerender now2 S mounted = mounted).
  { replace S with (timer mounted) at 1; [apply rerender_same|].
    unfold mounted. rewrite timer_run_frames by exact Hf. apply timer_mount. }
  rewrite Eu, Em. repeat split; reflexivity.
Qed.

Lemma duplicate_snapshot_idempotent_witness :
  rerender 31000 (timer_a 125)
    (run [Frame 30000] (rerender 0 (timer_a 125) (mount 0 (timer_a 130))))
  = run [Frame 30000] (rerender 0 (timer_a 125) (mount 0 (timer_a 130))).
Proof.
  apply (duplicate_snapshot_idempotent
           (mount 0 (timer_a 130)) (timer_a 125) 0 31000 [Frame 30000] []).
  reflexivity.
Defined.

(** ** WebSocketClient: reconnect backoff *)

Section Backoff.

Import WebSocketClient.

Variable World : Type.
Variable loc : Location.

Lemma failed_attempt_idle (c : State World) :
  reconnectTimer c = None ->
  reconnectTimer (failed_attempt loc c) = None /\
  reconnectDelay (failed_attempt loc c) = Z.min (reconnectDelay c * 2) 30000 /\
  handlers (failed_attempt loc c) = handlers c.
Proof.
  intros H.
  unfold failed_attempt, onerror, onclose, scheduleReconnect, reconnect_fired.
  rewrite H. simpl. auto.
Qed.

Lemma after_failures_state (n : nat) (c : State World) :
  reconnectTimer c = None ->
  reconnectDelay c = 1000 ->
  reconnectTimer (after_failures loc n c) = None /\
  reconnectDelay (after_failures loc n c)
    = Z.min (1000 * 2 ^ Z.of_nat n) 30000.
Proof.
  intros Ht Hd. induction n as [|n [IHt IHd]].
  - simpl. rewrite Ht, Hd. split; reflexivity.
  - unfold after_failures in *. rewrite Nat.iter_succ.
    destruct (failed_attempt_idle _ IHt) as [E1 [E2 _]].
    split; [exact E1|]. rewrite E2, IHd.
    rewrite Nat2Z.inj_succ, Z.pow_succ_r by lia.
    assert (0 < 2 ^ Z.of_nat n) by (apply Z.pow_pos_nonneg; lia).
    lia.
Qed.

Lemma next_delay_idle (c : State World) :
  reconnectTimer c = None -> next_delay c = Some (reconnectDelay c).
Proof.
  intros H. unfold next_delay, onclose, onerror, scheduleReconnect.
  rewrite H. reflexivity.
Qed.

(** C4. From a client whose backoff is at its initial value, the delay
    armed by the n-th consecutive failure (n = 0, 1, 2, ...) is
    min(1000 * 2^n, 30000) ms, for every n: 1s, 2s, 4s, 8s, 16s, 30s,
    30s, ...; and once a connection has opened, the next failure waits
    1s again and the doubling restarts. *)
Theorem reconnect_backoff (c : State World) (n : nat) :
  reconnectTimer c = None ->
  reconnectDelay c = 1000 ->
  next_delay (after_failures loc n c)
    = Some (Z.min (1000 * 2 ^ Z.of_nat n) 30000) /\
  map (fun k => next_delay (after_failures loc k c)) (seq 0 7)
    = [Some 1000; Some 2000; Some 4000; Some 8000; Some 16000;
       Some 30000; Some 30000] /\
  next_delay (onopen (after_failures loc n c)) = Some 1000 /\
  next_delay (failed_attempt loc (onopen (after_failures loc n c)))
    = Some 2000.
Proof.
  intros Ht Hd.
  assert (D : forall k, next_delay (after_failures loc k c)
                        = Some (Z.min (1000 * 2 ^ Z.of_nat k) 30000)).
  { intros k. destruct (after_failures_state k c Ht Hd) as [E1 E2].
    rewrite next_delay_idle by exact E1. rewrite E2. reflexivity. }
  split; [apply D|].
  split; [cbn [map seq]; rewrite !D; reflexivity|].
  destruct (after_failures_state n c Ht Hd) as [E1 _].
  assert (O : reconnectTimer (onopen (after_failures loc n c)) = None)
    by exact E1.
  split.
  - rewrite next_delay_idle by exact O. reflexivity.
  - destruct (failed_attempt_idle _ O) as [F1 [F2 _]].
    rewrite next_delay_idle by exact F1. rewrite F2. reflexivity.
Qed.

End Backoff.

Lemma reconnect_backoff_witness :
  next_delay
    (after_failures (WebSocketClient.mkLocation (lit "https:") (lit "example.org")) 9
       (WebSocketClient.onMessage App_onMessage
          (WebSocketClient.connect
             (WebSocketClient.mkLocation (lit "https:") (lit "example.org"))
             false WebSocketClient.init)))
  = Some (Z.min (1000 * 2 ^ Z.of_nat 9) 30000).
Proof.
  apply (reconnect_backoff App.State
           (WebSocketClient.mkLocation (lit "https:") (lit "example.org"))
           (WebSocketClient.onMessage App_onMessage
              (WebSocketClient.connect
                 (WebSocketClient.mkLocation (lit "https:") (lit "example.org"))
                 false WebSocketClient.init))
           9); reflexivity.
Defined.


(** ** App: client-side validation of the creation form *)

Lemma trimStart_nil (s : jsstring) :
  trimStart s = [] <-> forallb isWhiteSpace s = true.
Proof.
  induction s as [|c s IH]; simpl; [tauto|].
  destruct (isWhiteSpace c); simpl; [exact IH|].
  split; discriminate.
Qed.

Lemma trimStart_idem (s : jsstring) : trimStart (trimStart s) = trimStart s.
Proof.
  induction s as [|c s IH]; simpl; [reflexivity|].
  destruct (isWhiteSpace c) eqn:E; [exact IH|].
  simpl. rewrite E. reflexivity.
Qed.

Lemma forallb_rev (f : N -> bool) (s : jsstring) :
  forallb f (rev s) = true -> forallb f s = true.
Proof.
  rewrite !forallb_forall. intros H x Hx. apply H, in_rev.
  rewrite rev_involutive. exact Hx.
Qed.

(** [trim] leaves nothing exactly when the string is empty or consists of
    whitespace only. *)
Lemma trim_nil (s : jsstring) :
  trim s = [] <-> forallb isWhiteSpace s = true.
Proof.
  unfold trim, trimEnd. split.
  - intros H.
    assert (H1 : trimStart (rev (trimStart s)) = []).
    { rewrite <- (rev_involutive (trimStart (rev (trimStart s)))), H.
      reflexivity. }
    apply trimStart_nil, forallb_rev, trimStart_nil in H1.
    rewrite trimStart_idem in H1. apply trimStart_nil, H1.
  - intros H. apply trimStart_nil in H. rewrite H. reflexivity.
Qed.

(** C7. Submitting the creation form with a name that is empty or
    whitespace-only, or with minutes = 0 and seconds = 0, is rejected
    locally: an error message is set (the name message first, the duration
    message otherwise), no request is issued, and the form state and the
    timers are left unchanged. *)
Theorem handleCreate_rejects
    (fetch : ApiClient.Request -> ApiClient.fetch_outcome) (st : App.State) :
  forallb isWhiteSpace (tc_name (App.formData st)) = true \/
  (minutes (App.formData st) = 0 /\ seconds (App.formData st) = 0) ->
  snd (App.handleCreate fetch st) = [] /\
  App.formData (fst (App.handleCreate fetch st)) = App.formData st /\
  App.timers (fst (App.handleCreate fetch st)) = App.timers st /\
  App.error (fst (App.handleCreate fetch st))
    = (if forallb isWhiteSpace (tc_name (App.formData st))
       then lit "Please enter timer name" else lit "Time cannot be 0") /\
  App.error (fst (App.handleCreate fetch st)) <> [].
Proof.
  intros H. unfold App.handleCreate.
  destruct (forallb isWhiteSpace (tc_name (App.formData st))) eqn:W.
  - apply trim_nil in W. rewrite W. simpl.
    repeat split; discriminate.
  - destruct H as [H|[Hm Hs]]; [discriminate|].
    destruct (str_eqb (trim (tc_name (App.formData st))) []) eqn:T.
    + apply str_eqb_eq, trim_nil in T. congruence.
    + rewrite Hm, Hs. simpl. repeat split; discriminate.
Qed.

Lemma handleCreate_rejects_witness :
  snd (App.handleCreate (always not_found)
         (App.setFormData (mkTimerCreate [32%N; 9%N; 12288%N] 5 0) App.init)) = [] /\
  App.error (fst (App.handleCreate (always not_found)
         (App.setFormData (mkTimerCreate (lit "Anna") 0 0) App.init)))
    = lit "Time cannot be 0".
Proof.
  split.
  - apply (handleCreate_rejects (always not_found)
             (App.setFormData (mkTimerCreate [32%N; 9%N; 12288%N] 5 0) App.init)).
    left. reflexivity.
  - apply (handleCreate_rejects (always not_found)
             (App.setFormData (mkTimerCreate (lit "Anna") 0 0) App.init)).
    right. split; reflexivity.
Defined.

(** ** ApiClient: failure of the mutating operations *)

Section RequestFailure.

Import ApiClient.

(** C8, as stated, fails: adjust, restart and delete never read the
    response body.  A 404 whose structured body carries the message
    "Timer not found" makes [adjustTimer] fail with its generic message. *)
Lemma request_failure_counterexample :
  ok not_found = false /\
  json_body not_found
    = Parsed (JObj [ (lit "detail", JStr (lit "Timer not found")) ]) /\
  snd (adjustTimer (always not_found) (lit "a") 1)
    = Throw (mkExn ErrorK (lit "Failed to adjust timer")) /\
  snd (adjustTimer (always not_found) (lit "a") 1)
    <> Throw (mkExn ErrorK (lit "Timer not found")).
Proof.
  split; [reflexivity|]. split; [reflexivity|]. split; [reflexivity|].
  vm_compute. discriminate.
Qed.

(** C8, amended. A non-2xx response makes each of the four mutating
    operations fail.  create surfaces the [detail] of the error body when
    it is a non-empty string (in general the string form of any truthy
    [detail]) and uses its generic message when the body is a JSON value
    other than null without a truthy [detail]; adjust, restart and delete
    fail with their generic per-operation message whatever the body
    holds. *)
Theorem request_failure
    (fetch : Request -> fetch_outcome) (response : Response)
    (data : TimerCreate) (id : jsstring) (adjustSeconds : Z) :
  (forall req, fetch req = Responded response) ->
  ok response = false ->
  (exists e, snd (createTimer fetch data) = Throw e) /\
  snd (adjustTimer fetch id adjustSeconds)
    = Throw (mkExn ErrorK (lit "Failed to adjust timer")) /\
  snd (restartTimer fetch id)
    = Throw (mkExn ErrorK (lit "Failed to restart timer")) /\
  snd (deleteTimer fetch id)
    = Throw (mkExn ErrorK (lit "Failed to delete timer")) /\
  (forall fields d,
     json_body response = Parsed (JObj fields) ->
     Js.lookup (lit "detail") fields = Some (JStr d) -> d <> [] ->
     snd (createTimer fetch data) = Throw (mkExn ErrorK d)) /\
  (forall error detail,
     json_body response = Parsed error ->
     Js.get_prop error (lit "detail") = Ok detail ->
     snd (createTimer fetch data)
       = Throw (mkExn ErrorK
                  (if Js.truthy detail
                   then match detail with
                        | Some d => Js.ToString d
                        | None => []
                        end
                   else lit "Failed to create timer"))).
Proof.
  intros Hf Hok.
  unfold createTimer, adjustTimer, restartTimer, deleteTimer, await_fetch.
  cbn [snd]. rewrite !Hf. cbn [bind]. rewrite Hok. cbn [negb].
  split.
  { unfold response_json. destruct (json_body response) as [v|m]; cbn [bind];
      [|eauto].
    destruct (Js.get_prop v (lit "detail")); cbn [bind]; eauto. }
  split; [reflexivity|]. split; [reflexivity|]. split; [reflexivity|].
  split.
  - intros fields d Hb Hl Hd. unfold response_json. rewrite Hb. cbn [bind].
    cbn [Js.get_prop]. rewrite Hl. cbn [bind].
    unfold Js.str_of_or, Js.truthy.
    destruct d as [|x d]; [contradiction|]. reflexivity.
  - intros error detail Hb Hg. unfold response_json. rewrite Hb. cbn [bind].
    rewrite Hg. cbn [bind]. unfold Js.str_of_or.
    destruct detail as [d|]; [|reflexivity].
    destruct (Js.truthy (Some d)); reflexivity.
Qed.

Lemma request_failure_witness :
  snd (createTimer (always not_found) (mkTimerCreate (lit "Anna") 5 0))
    = Throw (mkExn ErrorK (lit "Timer not found")) /\
  snd (deleteTimer (always not_found) (lit "a"))
    = Throw (mkExn ErrorK (lit "Failed to delete timer")).
Proof.
  pose proof (request_failure (always not_found) not_found
                (mkTimerCreate (lit "Anna") 5 0) (lit "a") 1
                (fun _ => eq_refl) eq_refl) as [_ [_ [_ [D [C _]]]]].
  split.
  - apply (C [ (lit "detail", JStr (lit "Timer not found")) ]);
      [reflexivity | reflexivity | discriminate].
  - exact D.
Defined.

End RequestFailure.

(** ** App: the rendered list of cards *)

Lemma shown_Timer_json (t : Timer) :
  App.shown (Timer_json t) = Ok (App.shown_status t).
Proof.
  unfold App.shown, App.shown_status, Timer_json.
  destruct t as [i n r tot st d]; destruct st; reflexivity.
Qed.

Lemma filter_Timer_json (l : list Timer) :
  Js.filter App.shown (map Timer_json l)
    = Ok (map Timer_json (List.filter App.shown_status l)).
Proof.
  induction l as [|t l IH]; [reflexivity|].
  cbn [map Js.filter List.filter]. rewrite shown_Timer_json, IH. cbn [bind].
  destruct (App.shown_status t); reflexivity.
Qed.

(** C9. For every list of timers held as state, the rendered cards are
    exactly the timers whose status is active or completed, in snapshot
    order; a timer whose status is deleted never appears among them. *)
Theorem displayTimers_hides_deleted (l : list Timer) :
  App.displayTimers (JArr (map Timer_json l))
    = Ok (map Timer_json (List.filter App.shown_status l)) /\
  List.filter App.shown_status l
    = List.filter
        (fun t => Status_eqb (status t) active || Status_eqb (status t) completed)
        l /\
  (forall t, In t (List.filter App.shown_status l) <->
             In t l /\ (status t = active \/ status t = completed)) /\
  (forall t, In t (List.filter App.shown_status l) -> status t <> deleted).
Proof.
  split; [apply filter_Timer_json|].
  split.
  { apply filter_ext. intros t. unfold App.shown_status.
    destruct (status t); reflexivity. }
  split; intros t.
  - rewrite filter_In. unfold App.shown_status.
    destruct (status t); intuition (auto; discriminate).
  - rewrite filter_In. unfold App.shown_status.
    intros [_ H] E. rewrite E in H. discriminate.
Qed.

Lemma displayTimers_hides_deleted_witness :
  App.displayTimers
    (JArr (map Timer_json
             [ mkTimer (lit "a") (lit "Anna") 125 300 active None;
               mkTimer (lit "b") (lit "Howe") 40 300 deleted None;
               mkTimer (lit "c") (lit "Lee") 0 300 completed (Some (lit "77")) ]))
  = Ok (map Timer_json
          [ mkTimer (lit "a") (lit "Anna") 125 300 active None;
            mkTimer (lit "c") (lit "Lee") 0 300 completed (Some (lit "77")) ]) /\
  status (mkTimer (lit "a") (lit "Anna") 125 300 active None) <> deleted.
Proof.
  split.
  - apply (proj1 (displayTimers_hides_deleted
             [ mkTimer (lit "a") (lit "Anna") 125 300 active None;
               mkTimer (lit "b") (lit "Howe") 40 300 deleted None;
               mkTimer (lit "c") (lit "Lee") 0 300 completed (Some (lit "77")) ])).
  - apply (proj2 (proj2 (proj2 (displayTimers_hides_deleted
             [ mkTimer (lit "a") (lit "Anna") 125 300 active None ])))).
    simpl. left. reflexivity.
Defined.

(** ** Malformed snapshot payloads *)

Lemma shown_not_null (t : json) : t <> JNull -> App.shown t = Ok (shownb t).
Proof. intros H. destruct t; try reflexivity. contradiction. Qed.

Lemma filter_no_null (items : list json) :
  Forall (fun t => t <> JNull) items ->
  Js.filter App.shown items = Ok (List.filter shownb items).
Proof.
  induction 1 as [|t items Ht _ IH]; [reflexivity|].
  cbn [Js.filter List.filter]. rewrite (shown_not_null t Ht), IH. cbn [bind].
  destruct (shownb t); reflexivity.
Qed.

(** C10, as stated, fails: rendering is not total over malformed
    payloads.  The frame [{type: "state_update", timers: [null]}] passes
    the client's truthiness test, becomes the timers state, is an array,
    and the filter callback then throws a TypeError on [null.status]. *)
Lemma rendering_total_counterexample :
  WebSocketClient.onmessage (Parsed (state_update (JArr [JNull])))
    panel_client App.init
    = App.setTimers (JArr [JNull]) App.init /\
  Js.isArray (JArr [JNull]) = true /\
  App.displayTimers (App.timers (App.setTimers (JArr [JNull]) App.init))
    = Throw (mkExn TypeErrorK (Js.null_property_message (lit "status"))).
Proof. repeat split; reflexivity. Qed.

(** C10, amended. The WebSocket client forwards any truthy timers field
    of a state_update frame to the handlers without checking that it is an
    array (for the panel, it becomes the timers state); and for every
    timers state value that is not an array the rendered card list is
    empty, while for an array without null elements it is the
    active/completed filter of the array: a non-array payload yields zero
    cards rather than a crash. *)
Theorem rendering_malformed
    (World : Type) (c : WebSocketClient.State World) (w : World)
    (fields : list (jsstring * json)) (v : json) (st : App.State) :
  (Js.lookup (lit "type") fields = Some (JStr (lit "state_update")) ->
   Js.lookup (lit "timers") fields = Some v ->
   Js.truthy (Some v) = true ->
   WebSocketClient.onmessage (Parsed (JObj fields)) c w
     = WebSocketClient.forward v c w) /\
  WebSocketClient.forward v panel_client st = App.setTimers v st /\
  (Js.isArray v = false -> App.displayTimers v = Ok []) /\
  (forall items, v = JArr items ->
     Forall (fun t => t <> JNull) items ->
     App.displayTimers v = Ok (List.filter shownb items)).
Proof.
  split.
  { intros Ht Hv Htr. unfold WebSocketClient.onmessage.
    cbn [Js.get_prop]. rewrite Ht.
    replace (Js.strict_eq_str (Some (JStr (lit "state_update"))) (lit "state_update"))
      with true by (symmetry; apply str_eqb_refl).
    rewrite Hv, Htr. reflexivity. }
  split; [reflexivity|].
  split.
  { intros H. destruct v; try reflexivity. discriminate. }
  intros items -> H. apply filter_no_null, H.
Qed.

Lemma rendering_malformed_witness :
  WebSocketClient.onmessage
    (Parsed (state_update (JObj [ (lit "oops", JNum 1) ]))) panel_client App.init
    = WebSocketClient.forward (JObj [ (lit "oops", JNum 1) ]) panel_client App.init /\
  App.displayTimers (JObj [ (lit "oops", JNum 1) ]) = Ok [] /\
  App.displayTimers (JArr [ JNum 3; Timer_json (timer_a 9); JStr (lit "x") ])
    = Ok (List.filter shownb [ JNum 3; Timer_json (timer_a 9); JStr (lit "x") ]).
Proof.
  split.
  - apply (proj1 (rendering_malformed App.State panel_client App.init
             [ (lit "type", JStr (lit "state_update"));
               (lit "timers", JObj [ (lit "oops", JNum 1) ]) ]
             (JObj [ (lit "oops", JNum 1) ]) App.init)); reflexivity.
  - split.
    + apply (proj1 (proj2 (proj2 (rendering_malformed App.State panel_client
               App.init [] (JObj [ (lit "oops", JNum 1) ]) App.init)))).
      reflexivity.
    + apply (proj2 (proj2 (proj2 (rendering_malformed App.State panel_client
               App.init []
               (JArr [ JNum 3; Timer_json (timer_a 9); JStr (lit "x") ])
               App.init))) [ JNum 3; Timer_json (timer_a 9); JStr (lit "x") ]
               eq_refl).
      repeat constructor; discriminate.
Defined.


(* ================================================================== *)
(** * Further properties *)

(** ** TimerCard: the countdown never runs backwards *)

Lemma on_curve_mount (now : Z) (t : Timer) :
  0 <= remaining_seconds t -> on_curve (mount now t) now.
Proof.
  intros H. unfold on_curve. destruct (mount_anchor now t) as [-> [-> ->]].
  rewrite Z.sub_diag. change (0 / 1000) with 0. lia.
Qed.

Lemma on_curve_rerender (now : Z) (S : Timer) (st : State) :
  remaining_seconds S <> remaining_seconds (timer st) ->
  0 <= remaining_seconds S -> on_curve (rerender now S st) now.
Proof.
  intros H H0. unfold on_curve.
  destruct (rerender_changed now S st H) as [-> [-> ->]].
  rewrite Z.sub_diag. change (0 / 1000) with 0. lia.
Qed.

Lemma on_curve_updateCountdown (st : State) (tau now : Z) :
  on_curve st tau -> tau <= now ->
  exists tau', tau <= tau' <= now /\
    on_curve (updateCountdown now st) tau' /\
    localRemaining (updateCountdown now st) <= localRemaining st /\
    lastSyncTime (updateCountdown now st) = lastSyncTime st /\
    lastSyncRemaining (updateCountdown now st) = lastSyncRemaining st.
Proof.
  intros Hc Hle. unfold updateCountdown.
  destruct (lastUpdate st) as [u|]; [|exists tau; repeat split; auto; lia].
  destruct (250 <=? now - u); [|exists tau; repeat split; auto; lia].
  exists now. unfold on_curve in *. simpl. rewrite clamp_max, Hc.
  repeat split; try lia.
  assert ((tau - lastSyncTime st) / 1000 <= (now - lastSyncTime st) / 1000)
    by (apply Z.div_le_mono; lia).
  lia.
Qed.

Lemma ascending_weaken (lo lo' : Z) (times : list Z) :
  lo' <= lo -> ascending lo times -> ascending lo' times.
Proof. destruct times as [|t r]; simpl; [auto | intros H [H1 H2]; split; [lia | exact H2]]. Qed.

Lemma run_app (a b : list event) (st : State) :
  run (a ++ b) st = run b (run a st).
Proof. unfold run. apply fold_left_app. Qed.

Lemma frames_at_app (a b : list Z) :
  frames_at (a ++ b) = frames_at a ++ frames_at b.
Proof. unfold frames_at. apply map_app. Qed.

Lemma last_default (x : Z) (l : list Z) (d d' : Z) :
  last (x :: l) d = last (x :: l) d'.
Proof.
  revert x. induction l as [|y l IH]; intros x; [reflexivity|].
  change (last (y :: l) d = last (y :: l) d'). apply IH.
Qed.

Lemma on_curve_run (times : list Z) (st : State) (tau : Z) :
  on_curve st tau -> ascending tau times ->
  exists tau', tau <= tau' <= last times tau /\
    on_curve (run (frames_at times) st) tau' /\
    localRemaining (run (frames_at times) st) <= localRemaining st.
Proof.
  revert st tau. induction times as [|t times IH]; intros st tau Hc Ha.
  - exists tau. simpl. repeat split; auto; lia.
  - destruct Ha as [Hle Ha].
    destruct (on_curve_updateCountdown st tau t Hc Hle)
      as [tau1 [Hb [Hc1 [Hl1 _]]]].
    destruct (IH (updateCountdown t st) tau1 Hc1
                (ascending_weaken t tau1 times (proj2 Hb) Ha))
      as [tau2 [Hb2 [Hc2 Hl2]]].
    exists tau2. change (run (frames_at (t :: times)) st)
      with (run (frames_at times) (updateCountdown t st)).
    assert (L : last times tau1 <= last (t :: times) tau).
    { clear - Hb. destruct times as [|t' times]; [simpl; lia|].
      change (last (t :: t' :: times) tau) with (last (t' :: times) tau).
      rewrite (last_default t' times tau1 tau). lia. }
    repeat split; try assumption; lia.
Qed.

Lemma ascending_app (lo : Z) (a b : list Z) :
  ascending lo (a ++ b) -> ascending lo a /\ ascending (last a lo) b.
Proof.
  revert lo. induction a as [|x a IH]; intros lo H; [split; [exact I | exact H]|].
  destruct H as [H1 H2]. destruct (IH x H2) as [Ha Hb].
  split; [split; assumption|].
  destruct a as [|y a]; [exact Hb|].
  change (last (x :: y :: a) lo) with (last (y :: a) lo).
  rewrite (last_default y a lo x). exact Hb.
Qed.

(** X1. Absent a new snapshot the displayed value never increases: from a
    card whose displayed value lies on the anchor's curve (as right after
    a mount or a reconciling snapshot with non-negative remaining seconds,
    or after any tick), along frame callbacks whose clock readings never
    go back, the value after more frames is at most the value after
    fewer, and it never drops below zero. *)
Theorem countdown_non_increasing
    (st : State) (tau : Z) (before after : list Z) :
  on_curve st tau ->
  ascending tau (before ++ after) ->
  0 <= localRemaining (run (frames_at (before ++ after)) st)
    <= localRemaining (run (frames_at before) st) /\
  localRemaining (run (frames_at before) st) <= localRemaining st.
Proof.
  intros Hc Ha. destruct (ascending_app tau before after Ha) as [Hb Haf].
  destruct (on_curve_run before st tau Hc Hb) as [tau1 [Hb1 [Hc1 Hl1]]].
  destruct (on_curve_run after (run (frames_at before) st) tau1 Hc1
              (ascending_weaken _ tau1 after (proj2 Hb1) Haf))
    as [tau2 [_ [Hc2 Hl2]]].
  rewrite frames_at_app, run_app.
  unfold on_curve in Hc2. split; [split; [rewrite Hc2|]|]; lia.
Qed.

Lemma countdown_non_increasing_witness :
  0 <= localRemaining (run (frames_at ([300; 1200] ++ [2500; 2500; 61000]))
                         (mount 0 (timer_a 60)))
    <= localRemaining (run (frames_at [300; 1200]) (mount 0 (timer_a 60))) /\
  localRemaining (run (frames_at [300; 1200]) (mount 0 (timer_a 60)))
    <= localRemaining (mount 0 (timer_a 60)).
Proof.
  apply (countdown_non_increasing (mount 0 (timer_a 60)) 0
           [300; 1200] [2500; 2500; 61000]).
  - apply on_curve_mount. simpl. lia.
  - simpl. lia.
Defined.

(** ** TimerCard: the animation loop and the timer's status *)

Lemma run_frames_stopped (times : list Z) (st : State) :
  lastUpdate st = None -> run (frames_at times) st = st.
Proof.
  intros H. induction times as [|t times IH]; [reflexivity|].
  change (run (frames_at (t :: times)) st)
    with (run (frames_at times) (updateCountdown t st)).
  unfold updateCountdown at 1. rewrite H. exact IH.
Qed.

(** X2. In every state a card reaches from its mount through snapshots
    and frame callbacks, the animation loop is scheduled exactly when the
    timer's status is active; while the status is completed or deleted no
    frame callback changes anything, so the card is frozen however much
    time passes. *)
Theorem loop_runs_while_active
    (now0 : Z) (t : Timer) (evs : list event) (times : list Z) :
  let st := card_after now0 t evs in
  (status (timer st) = active <-> lastUpdate st <> None) /\
  (status (timer st) <> active -> run (frames_at times) st = st).
Proof.
  intros st.
  assert (Hinv : loop_inv st) by apply loop_inv_run, loop_inv_mount.
  unfold loop_inv in Hinv. split.
  - destruct (status (timer st)); split; intros H; try discriminate;
      try reflexivity; try (rewrite Hinv in H; contradiction).
    destruct Hinv as [u E]. rewrite E. discriminate.
  - intros H. apply run_frames_stopped.
    destruct (status (timer st)); [contradiction | exact Hinv | exact Hinv].
Qed.

Lemma loop_runs_while_active_witness :
  run (frames_at [40000; 90000])
      (card_after 0 (timer_a 30)
         [Frame 10000;
          Snapshot 31000 (mkTimer (lit "a") (lit "a") 0 125 completed None)])
  = card_after 0 (timer_a 30)
      [Frame 10000;
       Snapshot 31000 (mkTimer (lit "a") (lit "a") 0 125 completed None)].
Proof.
  apply (proj2 (loop_runs_while_active 0 (timer_a 30)
           [Frame 10000;
            Snapshot 31000 (mkTimer (lit "a") (lit "a") 0 125 completed None)]
           [40000; 90000])).
  vm_compute. discriminate.
Defined.


(** ** formatTime: what the text tells *)

Lemma unlit_lit (s : string) : unlit (lit s) = s.
Proof.
  unfold unlit, lit. rewrite map_map.
  rewrite (map_ext _ (fun a => a)) by apply ascii_N_embedding.
  rewrite map_id. apply string_of_list_ascii_of_string.
Qed.

Lemma lit_inj (a b : string) : lit a = lit b -> a = b.
Proof. intros H. rewrite <- (unlit_lit a), <- (unlit_lit b), H. reflexivity. Qed.

Lemma toString_inj (a b : Z) : toString a = toString b -> a = b.
Proof.
  intros H. apply lit_inj in H.
  assert (E : Some (Z.to_int a) = Some (Z.to_int b))
    by (rewrite <- !NilEmpty.isi, H; reflexivity).
  injection E as E. rewrite <- (DecimalZ.of_to a), <- (DecimalZ.of_to b), E.
  reflexivity.
Qed.

Lemma toString_nonneg (n : Z) :
  0 <= n ->
  exists d, toString n = lit (NilEmpty.string_of_uint d) /\ Z.of_uint d = n.
Proof.
  intros H. pose proof (DecimalZ.of_to n) as E. unfold toString.
  destruct n as [|p|p]; [| |lia].
  - exists (Decimal.D0 Decimal.Nil). split; reflexivity.
  - exists (Pos.to_uint p). split; [reflexivity | exact E].
Qed.

Lemma string_of_uint_digits (d : Decimal.uint) :
  forallb is_digit (lit (NilEmpty.string_of_uint d)) = true.
Proof.
  induction d; [reflexivity|..];
    change (true && forallb is_digit (lit (NilEmpty.string_of_uint d)) = true);
    exact IHd.
Qed.

Lemma toString_digits (n : Z) : 0 <= n -> forallb is_digit (toString n) = true.
Proof.
  intros H. destruct (toString_nonneg n H) as [d [-> _]].
  apply string_of_uint_digits.
Qed.

Lemma padStart_cases (s : jsstring) :
  padStart 2 (digit 0) s =
    match s with
    | [] => [digit 0; digit 0]
    | [c] => [digit 0; c]
    | _ => s
    end.
Proof. destruct s as [|c [|c' s]]; reflexivity. Qed.

Lemma padStart_digits (n : Z) :
  0 <= n -> forallb is_digit (padStart 2 (digit 0) (toString n)) = true.
Proof.
  intros H. pose proof (toString_digits n H) as D. rewrite padStart_cases.
  destruct (toString n) as [|c [|c' s]]; [reflexivity| |exact D].
  simpl in *. exact D.
Qed.

Lemma formatTime_first_digit (s : Z) :
  0 < s -> exists c rest, formatTime s = c :: rest /\ is_digit c = true.
Proof.
  intros H. destruct (Z_le_gt_dec s 60) as [L|G].
  - rewrite formatTime_bare by lia. rewrite toString_small by lia.
    assert (B : forall d, 0 <= d < 10 -> is_digit (digit d) = true).
    { intros d Hd.
      apply (forallb_Zrange (fun d => is_digit (digit d)) 0 10);
        [reflexivity | lia]. }
    destruct (s <? 10) eqn:E.
    + apply Z.ltb_lt in E. exists (digit s), []. split; [reflexivity|].
      apply B. lia.
    + apply Z.ltb_ge in E. exists (digit (s / 10)), [digit (s mod 10)].
      split; [reflexivity|]. apply B. split; [apply Z.div_pos; lia|].
      apply Z.div_lt_upper_bound; lia.
  - rewrite formatTime_mmss by lia.
    pose proof (padStart_digits (s / 60)) as D.
    assert (N0 : 0 <= s / 60) by (apply Z.div_pos; lia). specialize (D N0).
    rewrite padStart_cases in *.
    destruct (toString (s / 60)) as [|c [|c' r]]; simpl in D |- *.
    + exists (digit 0). eexists. split; reflexivity.
    + exists (digit 0). eexists. split; reflexivity.
    + exists c. eexists. split; [reflexivity|].
      apply andb_true_iff in D. apply D.
Qed.

(** X3. The sentinel REFILL is shown exactly for zero or below: every
    positive value is rendered as a text that starts with a decimal digit.
    Hence a tick shows REFILL exactly when at least as many whole seconds
    as the anchor's remaining seconds have elapsed since the anchor. *)
Theorem refill_exactly_at_zero (s : Z) (st : State) (u now : Z) :
  (formatTime s = lit "REFILL" <-> s <= 0) /\
  (lastUpdate st = Some u -> 250 <= now - u ->
     (display (updateCountdown now st) = lit "REFILL" <->
      1000 * lastSyncRemaining st <= now - lastSyncTime st)).
Proof.
  assert (R : forall x, formatTime x = lit "REFILL" <-> x <= 0).
  { intros x. split; [|apply formatTime_refill].
    intros H. destruct (Z_le_gt_dec x 0) as [L|G]; [exact L|].
    destruct (formatTime_first_digit x) as [c [rest [E D]]]; [lia|].
    rewrite E in H. injection H as Hc _. subst c. discriminate. }
  split; [apply R|].
  intros E H. rewrite (updateCountdown_due now u st E H).
  unfold display. cbn [localRemaining]. rewrite R. clear.
  pose proof (Z.div_mod (now - lastSyncTime st) 1000 ltac:(lia)) as Q.
  pose proof (Z.mod_pos_bound (now - lastSyncTime st) 1000 ltac:(lia)) as B.
  destruct (Z.max_spec 0
              (lastSyncRemaining st - (now - lastSyncTime st) / 1000))
    as [[M ->]|[M ->]]; lia.
Qed.

Lemma refill_exactly_at_zero_witness :
  display (updateCountdown 60000 (mount 0 (timer_a 60))) = lit "REFILL" <->
  1000 * lastSyncRemaining (mount 0 (timer_a 60))
    <= 60000 - lastSyncTime (mount 0 (timer_a 60)).
Proof.
  apply (proj2 (refill_exactly_at_zero 0 (mount 0 (timer_a 60)) 0 60000));
    [reflexivity | lia].
Defined.

Lemma unlit_zeros (k : nat) (d : Decimal.uint) :
  unlit (repeat (digit 0) k ++ lit (NilEmpty.string_of_uint d))
    = NilEmpty.string_of_uint (Nat.iter k Decimal.D0 d).
Proof.
  induction k as [|k IH]; [apply unlit_lit|].
  change (String "0" (unlit (repeat (digit 0) k
                               ++ lit (NilEmpty.string_of_uint d)))
          = String "0" (NilEmpty.string_of_uint (Nat.iter k Decimal.D0 d))).
  rewrite IH. reflexivity.
Qed.

Lemma of_uint_zeros (k : nat) (d : Decimal.uint) :
  Z.of_uint (Nat.iter k Decimal.D0 d) = Z.of_uint d.
Proof. induction k as [|k IH]; [reflexivity | exact IH]. Qed.

(** Zero-padding does not change the number the digits denote. *)
Lemma decimal_value_padStart (n : Z) :
  0 <= n -> decimal_value (padStart 2 (digit 0) (toString n)) = Some n.
Proof.
  intros H. destruct (toString_nonneg n H) as [d [-> E]].
  unfold padStart, decimal_value. rewrite unlit_zeros, NilEmpty.usu.
  simpl. rewrite of_uint_zeros, E. reflexivity.
Qed.

Lemma padStart_inj (a b : Z) :
  0 <= a -> 0 <= b ->
  padStart 2 (digit 0) (toString a) = padStart 2 (digit 0) (toString b) ->
  a = b.
Proof.
  intros Ha Hb E.
  assert (S : Some a = Some b)
    by (rewrite <- (decimal_value_padStart a Ha),
                <- (decimal_value_padStart b Hb), E; reflexivity).
  injection S as S. exact S.
Qed.

Lemma app_inj_suffix (x1 x2 y1 y2 : jsstring) :
  List.length y1 = List.length y2 ->
  x1 ++ y1 = x2 ++ y2 -> x1 = x2 /\ y1 = y2.
Proof.
  revert x2. induction x1 as [|c x1 IH]; intros [|c' x2] L E; simpl in E.
  - split; [reflexivity | exact E].
  - exfalso. rewrite E in L. simpl in L. rewrite length_app in L. lia.
  - exfalso. rewrite <- E in L. simpl in L. rewrite length_app in L. lia.
  - injection E as -> E. destruct (IH x2 L E) as [-> ->]. split; reflexivity.
Qed.

(** X4. The display is unambiguous on running countdowns: two different
    positive numbers of seconds are never rendered as the same text. *)
Theorem formatTime_injective (a b : Z) :
  0 < a -> 0 < b -> a <> b -> formatTime a <> formatTime b.
Proof.
  intros Ha Hb Hne E. apply Hne.
  assert (Short : forall s, 1 <= s <= 60 -> (List.length (formatTime s) <= 2)%nat).
  { intros s Hs. rewrite formatTime_bare, toString_small by lia.
    destruct (s <? 10); simpl; lia. }
  assert (Long : forall s, 60 < s -> (3 <= List.length (formatTime s))%nat).
  { intros s Hs. rewrite formatTime_mmss by lia.
    rewrite !length_app. simpl. lia. }
  destruct (Z_le_gt_dec a 60) as [La|Ga], (Z_le_gt_dec b 60) as [Lb|Gb].
  - rewrite !formatTime_bare in E by lia. apply toString_inj, E.
  - specialize (Short a ltac:(lia)). specialize (Long b ltac:(lia)).
    rewrite E in Short. lia.
  - specialize (Short b ltac:(lia)). specialize (Long a ltac:(lia)).
    rewrite E in Long. lia.
  - rewrite !formatTime_mmss in E by lia.
    apply app_inj_suffix in E; [|reflexivity].
    destruct E as [Em Es]. injection Es as Es1 Es2.
    assert (Qa : 0 <= a / 60) by (apply Z.div_pos; lia).
    assert (Qb : 0 <= b / 60) by (apply Z.div_pos; lia).
    pose proof (padStart_inj (a / 60) (b / 60) Qa Qb Em) as Q.
    pose proof (Z.mod_pos_bound a 60 ltac:(lia)) as Ra.
    pose proof (Z.mod_pos_bound b 60 ltac:(lia)) as Rb.
    assert (R : a mod 60 = b mod 60).
    { apply padStart_inj; [lia | lia |].
      rewrite !padStart_two_digits by lia. unfold two_digits.
      rewrite Es1, Es2. reflexivity. }
    rewrite (Z.div_mod a 60), (Z.div_mod b 60), Q, R by lia. reflexivity.
Qed.

Lemma formatTime_injective_witness :
  formatTime 61 <> formatTime 101 /\ formatTime 6000 <> formatTime 600.
Proof.
  split.
  - apply (formatTime_injective 61 101); lia.
  - apply (formatTime_injective 6000 600); lia.
Defined.

(** ** WebSocketClient: backoff under arbitrary events *)

Section Transport.

Import WebSocketClient.

Variable World : Type.
Variable loc : Location.

Lemma backoff_next (k : nat) : Z.min (backoff k * 2) 30000 = backoff (S k).
Proof.
  unfold backoff. rewrite Nat2Z.inj_succ, Z.pow_succ_r by lia.
  assert (0 < 2 ^ Z.of_nat k) by (apply Z.pow_pos_nonneg; lia). lia.
Qed.

Lemma backoff_bounds (k : nat) : 1000 <= backoff k <= 30000.
Proof.
  unfold backoff.
  assert (0 < 2 ^ Z.of_nat k) by (apply Z.pow_pos_nonneg; lia). lia.
Qed.

Lemma backoff_inv_scheduleReconnect (c : State World) :
  backoff_inv c -> backoff_inv (scheduleReconnect c).
Proof.
  intros [Hd Ht]. unfold scheduleReconnect.
  destruct (reconnectTimer c) eqn:E; [split; [exact Hd | rewrite E; exact Ht]|].
  split; [exact Hd|]. simpl. intros d [= <-]. exact Hd.
Qed.

Lemma backoff_inv_connect (throws : bool) (c : State World) :
  backoff_inv c -> backoff_inv (connect loc throws c).
Proof.
  intros H. unfold connect.
  destruct throws; [apply backoff_inv_scheduleReconnect, H | exact H].
Qed.

Lemma backoff_inv_step (c : State World) (ev : ws_event) :
  backoff_inv c -> backoff_inv (ws_step loc c ev).
Proof.
  intros H. destruct ev as [throws| | | |throws|]; simpl.
  - apply backoff_inv_connect, H.
  - destruct H as [_ Ht]. split; [exists 0%nat; reflexivity | exact Ht].
  - exact H.
  - apply backoff_inv_scheduleReconnect, H.
  - unfold reconnect_fired. destruct (reconnectTimer c) eqn:E; [|exact H].
    apply backoff_inv_connect. destruct H as [[k Hk] _].
    split; [|simpl; discriminate].
    exists (S k). simpl. rewrite Hk. apply backoff_next.
  - destruct H as [Hd _]. split; [exact Hd | simpl; discriminate].
Qed.

Lemma backoff_inv_run (evs : list ws_event) (c : State World) :
  backoff_inv c -> backoff_inv (ws_run loc evs c).
Proof.
  unfold ws_run. revert c.
  induction evs as [|ev evs IH]; intros c H; [exact H|].
  simpl. apply IH, backoff_inv_step, H.
Qed.

(** X5. Whatever the order of connects, opens, errors, closes, timeouts
    and disconnects, the reconnect delay and the delay of a pending
    timeout are always one of 1s, 2s, 4s, 8s, 16s, 30s: never below one
    second and never above thirty. *)
Theorem backoff_always_bounded (evs : list ws_event) :
  let c := ws_run loc evs (init (World := World)) in
  (exists k, reconnectDelay c = backoff k) /\
  1000 <= reconnectDelay c <= 30000 /\
  (forall d, reconnectTimer c = Some d ->
     (exists k, d = backoff k) /\ 1000 <= d <= 30000).
Proof.
  intros c.
  assert (H : backoff_inv c).
  { apply backoff_inv_run. split; [exists 0%nat; reflexivity | discriminate]. }
  destruct H as [[k Hk] Ht].
  split; [exists k; exact Hk|].
  split; [rewrite Hk; apply backoff_bounds|].
  intros d Hd. destruct (Ht d Hd) as [j ->].
  split; [exists j; reflexivity | apply backoff_bounds].
Qed.

Lemma ws_run_closes (n : nat) (c : State World) :
  ws_run loc (repeat EvClose (S n)) c = onclose c.
Proof.
  revert c. induction n as [|n IH]; intros c; [reflexivity|].
  change (ws_run loc (repeat EvClose (S (S n))) c)
    with (ws_run loc (repeat EvClose (S n)) (onclose c)).
  rewrite IH. unfold onclose, scheduleReconnect.
  destruct (reconnectTimer c) eqn:E; [rewrite E; reflexivity | reflexivity].
Qed.

(** X6. At most one reconnect is scheduled per failure: any number of
    close events in a row has the effect of the first one, and while a
    timeout is pending neither a close event nor a throwing constructor
    changes the client, so the pending delay is not replaced and no step
    of the backoff is skipped. *)
Theorem reconnect_scheduled_once
    (c : State World) (n : nat) (d : Z) :
  ws_run loc (repeat EvClose (S n)) c = onclose c /\
  (reconnectTimer c = Some d ->
     onclose c = c /\ connect loc true c = c /\
     reconnectDelay (reconnect_fired loc false (onclose c))
       = Z.min (reconnectDelay c * 2) 30000).
Proof.
  split; [apply ws_run_closes|].
  intros H. unfold onclose, connect, scheduleReconnect. rewrite H.
  split; [reflexivity|]. split; [reflexivity|].
  unfold reconnect_fired, connect. rewrite H. reflexivity.
Qed.

Lemma reconnect_fired_throwing (c : State World) (d : Z) :
  reconnectTimer c = Some d ->
  reconnectTimer (reconnect_fired loc true c)
    = Some (Z.min (reconnectDelay c * 2) 30000) /\
  reconnectDelay (reconnect_fired loc true c)
    = Z.min (reconnectDelay c * 2) 30000.
Proof.
  intros H. unfold reconnect_fired, connect, scheduleReconnect. rewrite H.
  split; reflexivity.
Qed.

(** X7. When the WebSocket constructor itself throws on every attempt,
    the catch branch follows the same backoff: the timeout pending after
    the n-th retry was armed with min(1000 * 2^n, 30000) ms. *)
Theorem backoff_when_constructor_throws (c : State World) (n : nat) :
  reconnectTimer c = None ->
  reconnectDelay c = 1000 ->
  reconnectTimer (Nat.iter n (reconnect_fired loc true) (connect loc true c))
    = Some (backoff n).
Proof.
  intros Ht Hd.
  assert (H : reconnectTimer
                (Nat.iter n (reconnect_fired loc true) (connect loc true c))
              = Some (backoff n) /\
              reconnectDelay
                (Nat.iter n (reconnect_fired loc true) (connect loc true c))
              = backoff n).
  { induction n as [|n [IHt IHd]].
    - simpl. unfold scheduleReconnect. rewrite Ht, Hd. split; reflexivity.
    - rewrite Nat.iter_succ.
      destruct (reconnect_fired_throwing _ _ IHt) as [E1 E2].
      rewrite E1, E2, IHd, backoff_next. split; reflexivity. }
  apply H.
Qed.

(** X8. [disconnect] drops the socket and cancels the pending reconnect (a
    timeout firing afterwards does nothing) but keeps the registered
    handlers and the backed-off delay; it does not detach the socket's
    close handler, so when the close event of the socket it closed is
    delivered a reconnect is armed again, with the delay kept, and the
    client connects anew when that timeout fires. *)
Theorem disconnect_effect (c : State World) (throws : bool) :
  ws (disconnect c) = None /\
  reconnectTimer (disconnect c) = None /\
  reconnect_fired loc throws (disconnect c) = disconnect c /\
  handlers (disconnect c) = handlers c /\
  reconnectDelay (disconnect c) = reconnectDelay c /\
  reconnectTimer (onclose (disconnect c)) = Some (reconnectDelay c) /\
  ws (reconnect_fired loc false (onclose (disconnect c))) <> None.
Proof.
  repeat split; try reflexivity.
  unfold reconnect_fired, onclose, scheduleReconnect, connect. simpl.
  discriminate.
Qed.

(** X9. Handlers run in registration order: registering handlers on a
    client and forwarding a value runs the earlier handlers first and then
    the new ones in the order they were registered (a handler registered
    twice runs twice); registering touches neither the delay nor a
    pending timeout. *)
Theorem handlers_in_registration_order
    (hs : list (MessageHandler World)) (c : State World) (v : json) (w : World) :
  forward v (register_all hs c) w
    = fold_left (fun w h => h v w) hs (forward v c w) /\
  reconnectDelay (register_all hs c) = reconnectDelay c /\
  reconnectTimer (register_all hs c) = reconnectTimer c.
Proof.
  revert c w. induction hs as [|h hs IH]; intros c w; [repeat split|].
  destruct (IH (onMessage h c) w) as [IH1 [IH2 IH3]].
  change (register_all (h :: hs) c) with (register_all hs (onMessage h c)).
  rewrite IH1, IH2, IH3. repeat split.
  assert (F : forward v (onMessage h c) w = h v (forward v c w)).
  { unfold forward. cbn [handlers onMessage]. rewrite fold_left_app.
    reflexivity. }
  rewrite F. reflexivity.
Qed.

(** X10. Frames that are not snapshots are dropped without effect: a text
    that is not JSON, a JSON value that is not an object (null included),
    an object whose [type] is not the string "state_update", and a
    state_update whose [timers] field is missing or falsy (null, false, 0,
    the empty string) all leave what the handlers act on unchanged; an
    empty array, being truthy, is forwarded. *)
Theorem onmessage_drops_other_frames
    (c : State World) (w : World) (m : jsstring) (data : json)
    (fields : list (jsstring * json)) :
  onmessage (Unparseable m) c w = w /\
  ((forall fs, data <> JObj fs) -> onmessage (Parsed data) c w = w) /\
  (Js.strict_eq_str (Js.lookup (lit "type") fields) (lit "state_update") = false ->
     onmessage (Parsed (JObj fields)) c w = w) /\
  (Js.truthy (Js.lookup (lit "timers") fields) = false ->
     onmessage (Parsed (JObj fields)) c w = w) /\
  onmessage (Parsed (state_update (JArr []))) c w = forward (JArr []) c w.
Proof.
  split; [reflexivity|].
  split.
  { intros H. destruct data; try reflexivity. exfalso. apply (H fields0).
    reflexivity. }
  split.
  { intros H. unfold onmessage. cbn [Js.get_prop]. rewrite H. reflexivity. }
  split; [|reflexivity].
  intros H. unfold onmessage. cbn [Js.get_prop].
  destruct (Js.strict_eq_str (Js.lookup (lit "type") fields) (lit "state_update"));
    [|reflexivity].
  destruct (Js.lookup (lit "timers") fields) as [v|]; [|reflexivity].
  rewrite H. reflexivity.
Qed.

End Transport.

Lemma backoff_always_bounded_witness :
  (exists k, 2000 = backoff k) /\ 1000 <= 2000 <= 30000.
Proof.
  apply (proj2 (proj2 (backoff_always_bounded App.State
           (WebSocketClient.mkLocation (lit "http:") (lit "localhost:3000"))
           [EvConnect false; EvError; EvClose; EvReconnect false; EvClose; EvClose]))
           2000).
  reflexivity.
Defined.

Lemma reconnect_scheduled_once_witness :
  WebSocketClient.onclose
    (WebSocketClient.onclose (WebSocketClient.init (World := App.State)))
  = WebSocketClient.onclose WebSocketClient.init.
Proof.
  apply (proj2 (reconnect_scheduled_once App.State
                  (WebSocketClient.mkLocation (lit "http:") (lit "localhost:3000"))
                  (WebSocketClient.onclose WebSocketClient.init) 0 1000)).
  reflexivity.
Defined.

Lemma backoff_when_constructor_throws_witness :
  WebSocketClient.reconnectTimer
    (Nat.iter 6
       (WebSocketClient.reconnect_fired
          (WebSocketClient.mkLocation (lit "http:") (lit "localhost:3000")) true)
       (WebSocketClient.connect
          (WebSocketClient.mkLocation (lit "http:") (lit "localhost:3000")) true
          (WebSocketClient.init (World := App.State))))
  = Some (backoff 6).
Proof.
  apply (backoff_when_constructor_throws App.State
           (WebSocketClient.mkLocation (lit "http:") (lit "localhost:3000"))
           WebSocketClient.init 6); reflexivity.
Defined.

Lemma onmessage_drops_other_frames_witness :
  WebSocketClient.onmessage (Parsed (JArr [JNum 1])) panel_client App.init
    = App.init /\
  WebSocketClient.onmessage
    (Parsed (JObj [ (lit "type", JStr (lit "ping")); (lit "timers", JArr []) ]))
    panel_client App.init = App.init /\
  WebSocketClient.onmessage
    (Parsed (JObj [ (lit "type", JStr (lit "state_update"));
                    (lit "timers", JNull) ]))
    panel_client App.init = App.init.
Proof.
  split.
  - apply (proj1 (proj2 (onmessage_drops_other_frames App.State panel_client
             App.init [] (JArr [JNum 1]) []))).
    discriminate.
  - split.
    + apply (proj1 (proj2 (proj2 (onmessage_drops_other_frames App.State
               panel_client App.init [] JNull
               [ (lit "type", JStr (lit "ping")); (lit "timers", JArr []) ])))).
      reflexivity.
    + apply (proj1 (proj2 (proj2 (proj2 (onmessage_drops_other_frames App.State
               panel_client App.init [] JNull
               [ (lit "type", JStr (lit "state_update"));
                 (lit "timers", JNull) ]))))).
      reflexivity.
Defined.

(** ** ApiClient: success, rejection and malformed error bodies *)

Section RequestOutcomes.

Import ApiClient.

Variable fetch : Request -> fetch_outcome.

(** X11. On a 2xx response adjust, restart and delete succeed whatever
    the body holds (an empty 204 body included), while create and
    getTimers resolve with the parsed body and fail with the parser's
    SyntaxError when a 2xx body is not JSON. *)
Theorem request_success
    (response : Response) (data : TimerCreate) (id : jsstring)
    (adjustSeconds : Z) :
  (forall req, fetch req = Responded response) ->
  ok response = true ->
  snd (adjustTimer fetch id adjustSeconds) = Ok tt /\
  snd (restartTimer fetch id) = Ok tt /\
  snd (deleteTimer fetch id) = Ok tt /\
  (forall v, json_body response = Parsed v ->
     snd (createTimer fetch data) = Ok v /\ snd (getTimers fetch) = Ok v) /\
  (forall m, json_body response = Unparseable m ->
     snd (createTimer fetch data) = Throw (mkExn SyntaxErrorK m) /\
     snd (getTimers fetch) = Throw (mkExn SyntaxErrorK m)).
Proof.
  intros Hf Hok.
  unfold createTimer, getTimers, adjustTimer, restartTimer, deleteTimer,
    await_fetch, response_json.
  cbn [snd]. rewrite !Hf. cbn [bind]. rewrite Hok. cbn [negb].
  repeat split; try reflexivity; rewrite H; reflexivity.
Qed.

(** X12. When a request does not reach the server, each of the five
    operations fails with the rejection of [fetch] itself, not with its
    generic message, after issuing exactly one request. *)
Theorem request_rejected
    (e : exn) (data : TimerCreate) (id : jsstring) (adjustSeconds : Z) :
  (forall req, fetch req = Rejected e) ->
  snd (getTimers fetch) = Throw e /\
  snd (createTimer fetch data) = Throw e /\
  snd (adjustTimer fetch id adjustSeconds) = Throw e /\
  snd (restartTimer fetch id) = Throw e /\
  snd (deleteTimer fetch id) = Throw e /\
  List.length (fst (getTimers fetch)) = 1%nat /\
  List.length (fst (createTimer fetch data)) = 1%nat /\
  List.length (fst (adjustTimer fetch id adjustSeconds)) = 1%nat /\
  List.length (fst (restartTimer fetch id)) = 1%nat /\
  List.length (fst (deleteTimer fetch id)) = 1%nat.
Proof.
  intros Hf.
  unfold createTimer, getTimers, adjustTimer, restartTimer, deleteTimer,
    await_fetch.
  cbn [snd fst]. rewrite !Hf. repeat split.
Qed.

Lemma ToString_objects (items : list json) :
  forallb is_object items = true ->
  Js.ToString (JArr items)
    = join (lit ",") (map (fun _ => lit "[object Object]") items).
Proof.
  intros H. cbn [Js.ToString]. f_equal.
  induction items as [|x items IH]; [reflexivity|].
  cbn [forallb] in H. apply andb_true_iff in H. destruct H as [Hx Hr].
  destruct x; try discriminate.
  cbn [map]. rewrite <- (IH Hr). reflexivity.
Qed.

(** X13. What create surfaces from a non-2xx response with an unusual
    body: a body that is not JSON makes it fail with the parser's
    SyntaxError instead of its generic message; the body null makes it
    fail with a TypeError; a [detail] that is a non-empty list of objects
    (a validation report) is surfaced as "[object Object]" repeated,
    joined by commas; and an empty list as [detail] gives an empty
    message. *)
Theorem createTimer_unusual_error_body
    (response : Response) (data : TimerCreate) :
  (forall req, fetch req = Responded response) ->
  ok response = false ->
  (forall m, json_body response = Unparseable m ->
     snd (createTimer fetch data) = Throw (mkExn SyntaxErrorK m)) /\
  (json_body response = Parsed JNull ->
     exists m, snd (createTimer fetch data) = Throw (mkExn TypeErrorK m)) /\
  (forall fields items,
     json_body response = Parsed (JObj fields) ->
     Js.lookup (lit "detail") fields = Some (JArr items) ->
     forallb is_object items = true ->
     snd (createTimer fetch data)
       = Throw (mkExn ErrorK
                  (join (lit ",") (map (fun _ => lit "[object Object]") items)))) /\
  (forall fields,
     json_body response = Parsed (JObj fields) ->
     Js.lookup (lit "detail") fields = Some (JArr []) ->
     snd (createTimer fetch data) = Throw (mkExn ErrorK [])).
Proof.
  intros Hf Hok.
  unfold createTimer, await_fetch, response_json.
  cbn [snd]. rewrite !Hf. cbn [bind]. rewrite Hok. cbn [negb].
  split; [intros m ->; reflexivity|].
  split; [intros ->; eexists; reflexivity|].
  split.
  - intros fields items -> Hl Ho. cbn [bind Js.get_prop]. rewrite Hl.
    cbn [bind]. unfold Js.str_of_or. cbn [Js.truthy].
    rewrite (ToString_objects items Ho). reflexivity.
  - intros fields -> Hl. cbn [bind Js.get_prop]. rewrite Hl. reflexivity.
Qed.

End RequestOutcomes.

Lemma request_success_witness :
  snd (ApiClient.deleteTimer (always no_content) (lit "a")) = Ok tt /\
  snd (ApiClient.createTimer (always no_content) default_draft)
    = Throw (mkExn SyntaxErrorK (lit "Unexpected end of JSON input")) /\
  snd (ApiClient.createTimer (always created) default_draft)
    = Ok (Timer_json (timer_a 300)).
Proof.
  pose proof (request_success (always no_content) no_content default_draft
                (lit "a") 1 (fun _ => eq_refl) eq_refl) as [_ [_ [D [_ U]]]].
  pose proof (request_success (always created) created default_draft
                (lit "a") 1 (fun _ => eq_refl) eq_refl) as [_ [_ [_ [P _]]]].
  split; [exact D|]. split.
  - apply (U (lit "Unexpected end of JSON input")). reflexivity.
  - apply (P (Timer_json (timer_a 300))). reflexivity.
Defined.

Lemma request_rejected_witness :
  snd (ApiClient.restartTimer
         (unreachable (mkExn TypeErrorK (lit "Failed to fetch"))) (lit "a"))
  = Throw (mkExn TypeErrorK (lit "Failed to fetch")).
Proof.
  apply (request_rejected
           (unreachable (mkExn TypeErrorK (lit "Failed to fetch")))
           (mkExn TypeErrorK (lit "Failed to fetch")) default_draft (lit "a") 1
           (fun _ => eq_refl)).
Defined.

Lemma createTimer_unusual_error_body_witness :
  snd (ApiClient.createTimer (always validation_report) default_draft)
  = Throw (mkExn ErrorK (lit "[object Object],[object Object]")).
Proof.
  pose proof (createTimer_unusual_error_body (always validation_report)
                validation_report default_draft (fun _ => eq_refl) eq_refl)
    as [_ [_ [L _]]].
  apply (L [ (lit "detail",
              JArr [ JObj [ (lit "msg", JStr (lit "field required")) ];
                     JObj [ (lit "msg", JStr (lit "value too large")) ] ]) ]
           [ JObj [ (lit "msg", JStr (lit "field required")) ];
             JObj [ (lit "msg", JStr (lit "value too large")) ] ]);
    reflexivity.
Defined.

(** ** App: the handlers *)

Section Handlers.

Variable fetch : ApiClient.Request -> ApiClient.fetch_outcome.

Lemma str_or_nonempty (a b : jsstring) : b <> [] -> Js.str_or a b <> [].
Proof. intros H. destruct a; [exact H | discriminate]. Qed.

(** X14. The handlers are fire-and-forget with respect to the timers:
    create, adjust, restart and delete never touch the timers state,
    whatever the server answers; adjust, restart and delete never touch
    the draft either; each issues at most one request, and a delete whose
    confirmation is declined issues none and changes nothing. *)
Theorem handlers_leave_timers
    (st : App.State) (id : jsstring) (secs : Z) (confirmed : bool) :
  App.timers (fst (App.handleCreate fetch st)) = App.timers st /\
  App.timers (fst (App.handleAdjust fetch id secs st)) = App.timers st /\
  App.timers (fst (App.handleRestart fetch id st)) = App.timers st /\
  App.timers (fst (App.handleDelete fetch confirmed id st)) = App.timers st /\
  App.formData (fst (App.handleAdjust fetch id secs st)) = App.formData st /\
  App.formData (fst (App.handleRestart fetch id st)) = App.formData st /\
  App.formData (fst (App.handleDelete fetch confirmed id st)) = App.formData st /\
  (List.length (snd (App.handleCreate fetch st)) <= 1)%nat /\
  List.length (snd (App.handleAdjust fetch id secs st)) = 1%nat /\
  List.length (snd (App.handleRestart fetch id st)) = 1%nat /\
  List.length (snd (App.handleDelete fetch confirmed id st))
    = (if confirmed then 1%nat else 0%nat) /\
  App.handleDelete fetch false id st = (st, []).
Proof.
  unfold App.handleCreate, App.handleAdjust, App.handleRestart, App.handleDelete,
    ApiClient.createTimer, ApiClient.adjustTimer, ApiClient.restartTimer,
    ApiClient.deleteTimer.
  destruct (str_eqb (trim (tc_name (App.formData st))) []);
    destruct ((minutes (App.formData st) =? 0) && (seconds (App.formData st) =? 0));
    destruct confirmed; cbn [negb];
    repeat match goal with
           | |- context [match ?r with Ok _ => _ | Throw _ => _ end] =>
               destruct r
           end;
    cbn; repeat split; auto.
Qed.

(** X15. The error message follows the outcome of adjust, restart and a
    confirmed delete: a 2xx response clears it, a non-2xx response sets
    the operation's generic message whatever the body says, and a request
    that does not reach the server sets the rejection's message, or the
    generic message when that one is empty; in both failure cases the
    message is not empty. *)
Theorem error_follows_outcome
    (st : App.State) (id : jsstring) (secs : Z) :
  (forall response, (forall req, fetch req = ApiClient.Responded response) ->
     App.error (fst (App.handleAdjust fetch id secs st))
       = (if ApiClient.ok response then [] else lit "Failed to adjust timer") /\
     App.error (fst (App.handleRestart fetch id st))
       = (if ApiClient.ok response then [] else lit "Failed to restart timer") /\
     App.error (fst (App.handleDelete fetch true id st))
       = (if ApiClient.ok response then [] else lit "Failed to delete timer")) /\
  (forall e, (forall req, fetch req = ApiClient.Rejected e) ->
     App.error (fst (App.handleAdjust fetch id secs st))
       = Js.str_or (message e) (lit "Failed to adjust timer") /\
     App.error (fst (App.handleRestart fetch id st))
       = Js.str_or (message e) (lit "Failed to restart timer") /\
     App.error (fst (App.handleDelete fetch true id st))
       = Js.str_or (message e) (lit "Failed to delete timer") /\
     App.error (fst (App.handleAdjust fetch id secs st)) <> [] /\
     App.error (fst (App.handleRestart fetch id st)) <> [] /\
     App.error (fst (App.handleDelete fetch true id st)) <> []).
Proof.
  split.
  - intros response Hf.
    unfold App.handleAdjust, App.handleRestart, App.handleDelete,
      ApiClient.adjustTimer, ApiClient.restartTimer, ApiClient.deleteTimer,
      ApiClient.await_fetch.
    rewrite !Hf. cbn [bind negb]. destruct (ApiClient.ok response);
      repeat split; reflexivity.
  - intros e Hf.
    unfold App.handleAdjust, App.handleRestart, App.handleDelete,
      ApiClient.adjustTimer, ApiClient.restartTimer, ApiClient.deleteTimer,
      ApiClient.await_fetch.
    rewrite !Hf. cbn.
    repeat split; try reflexivity; apply str_or_nonempty; discriminate.
Qed.

Lemma handleCreate_valid (st : App.State) :
  forallb isWhiteSpace (tc_name (App.formData st)) = false ->
  minutes (App.formData st) <> 0 \/ seconds (App.formData st) <> 0 ->
  App.handleCreate fetch st =
    (match snd (ApiClient.createTimer fetch (App.formData st)) with
     | Ok _ => App.setError [] (App.setFormData default_draft st)
     | Throw err =>
         App.setError (Js.str_or (message err) (lit "Failed to create timer")) st
     end,
     [ApiClient.mkRequest (lit "POST") (ApiClient.BASE_URL ++ lit "/timers")
         (Some (TimerCreate_json (App.formData st)))]).
Proof.
  intros Hn Hz. unfold App.handleCreate.
  destruct (str_eqb (trim (tc_name (App.formData st))) []) eqn:T.
  { apply str_eqb_eq, trim_nil in T. congruence. }
  replace ((minutes (App.formData st) =? 0) && (seconds (App.formData st) =? 0))
    with false.
  2:{ symmetry. apply andb_false_iff.
      destruct Hz as [H|H]; [left | right]; apply Z.eqb_neq, H. }
  unfold ApiClient.createTimer. cbn [snd].
  match goal with
  | |- context [match ?r with Ok _ => _ | Throw _ => _ end] => destruct r
  end; reflexivity.
Qed.

(** X16. A draft that passes validation (a name that is not blank, and
    minutes and seconds not both zero) issues exactly one POST to the
    timers collection carrying the draft.  If the server answers 2xx with
    a JSON body the draft is reset to its defaults and the error is
    cleared; if it answers 2xx with a body that is not JSON, or non-2xx
    with a non-empty string [detail], the draft is kept and the error is
    the parser's message (the generic message when that is empty),
    respectively the [detail]. *)
Theorem handleCreate_submits (st : App.State) (response : ApiClient.Response) :
  forallb isWhiteSpace (tc_name (App.formData st)) = false ->
  minutes (App.formData st) <> 0 \/ seconds (App.formData st) <> 0 ->
  (forall req, fetch req = ApiClient.Responded response) ->
  snd (App.handleCreate fetch st)
    = [ApiClient.mkRequest (lit "POST") (ApiClient.BASE_URL ++ lit "/timers")
         (Some (TimerCreate_json (App.formData st)))] /\
  (forall v, ApiClient.ok response = true ->
     ApiClient.json_body response = Parsed v ->
     App.formData (fst (App.handleCreate fetch st)) = default_draft /\
     App.error (fst (App.handleCreate fetch st)) = []) /\
  (forall m, ApiClient.ok response = true ->
     ApiClient.json_body response = Unparseable m ->
     App.formData (fst (App.handleCreate fetch st)) = App.formData st /\
     App.error (fst (App.handleCreate fetch st))
       = Js.str_or m (lit "Failed to create timer")) /\
  (forall fields d, ApiClient.ok response = false ->
     ApiClient.json_body response = Parsed (JObj fields) ->
     Js.lookup (lit "detail") fields = Some (JStr d) -> d <> [] ->
     App.formData (fst (App.handleCreate fetch st)) = App.formData st /\
     App.error (fst (App.handleCreate fetch st)) = d).
Proof.
  intros Hn Hz Hf. rewrite (handleCreate_valid st Hn Hz). cbn [fst snd].
  split; [reflexivity|].
  unfold ApiClient.createTimer, ApiClient.await_fetch, ApiClient.response_json.
  cbn [snd]. rewrite Hf. cbn [bind].
  split; [|split].
  - intros v -> ->. split; reflexivity.
  - intros m -> ->. split; reflexivity.
  - intros fields d -> -> Hl Hd. cbn [negb bind Js.get_prop]. rewrite Hl.
    cbn [bind]. destruct d as [|c d]; [contradiction|]. split; reflexivity.
Qed.

(** X17. Loading the timers issues one GET.  A 2xx JSON body becomes the
    timers state as it is, array or not, and clears the error; any failure
    (non-2xx, a body that is not JSON, a request that does not reach the
    server) keeps the timers and sets the message "Failed to load timers",
    whatever message the failure carried.  The draft is never touched, and
    a loaded body that is not an array renders no card. *)
Theorem loadTimers_outcome (st : App.State) :
  App.formData (fst (App.loadTimers fetch st)) = App.formData st /\
  List.length (snd (App.loadTimers fetch st)) = 1%nat /\
  (forall v, snd (ApiClient.getTimers fetch) = Ok v ->
     App.timers (fst (App.loadTimers fetch st)) = v /\
     App.error (fst (App.loadTimers fetch st)) = [] /\
     (Js.isArray v = false ->
        App.displayTimers (App.timers (fst (App.loadTimers fetch st))) = Ok [])) /\
  (forall e, snd (ApiClient.getTimers fetch) = Throw e ->
     App.timers (fst (App.loadTimers fetch st)) = App.timers st /\
     App.error (fst (App.loadTimers fetch st)) = lit "Failed to load timers").
Proof.
  unfold App.loadTimers, ApiClient.getTimers. cbn [snd].
  match goal with
  | |- context [match ?r with Ok _ => _ | Throw _ => _ end] =>
      destruct r as [data|err]
  end; cbn [fst snd].
  - split; [reflexivity|]. split; [reflexivity|]. split.
    + intros v [= <-]. split; [reflexivity|]. split; [reflexivity|].
      intros H. destruct data; try reflexivity. discriminate.
    + intros e [=].
  - split; [reflexivity|]. split; [reflexivity|]. split.
    + intros v [=].
    + intros e _. split; reflexivity.
Qed.

End Handlers.

Lemma error_follows_outcome_witness :
  App.error (fst (App.handleAdjust (always not_found) (lit "a") 1 App.init))
    = lit "Failed to adjust timer" /\
  App.error (fst (App.handleDelete (always no_content) true (lit "a")
                    (App.setError (lit "old") App.init))) = [] /\
  App.error (fst (App.handleRestart
                    (unreachable (mkExn TypeErrorK (lit "Failed to fetch")))
                    (lit "a") App.init))
    = lit "Failed to fetch".
Proof.
  split.
  - apply (proj1 (error_follows_outcome (always not_found) App.init (lit "a") 1)
             not_found (fun _ => eq_refl)).
  - split.
    + apply (proj1 (error_follows_outcome (always no_content)
                      (App.setError (lit "old") App.init) (lit "a") 1)
               no_content (fun _ => eq_refl)).
    + apply (proj2 (error_follows_outcome
                      (unreachable (mkExn TypeErrorK (lit "Failed to fetch")))
                      App.init (lit "a") 1)
               (mkExn TypeErrorK (lit "Failed to fetch")) (fun _ => eq_refl)).
Defined.

Lemma handleCreate_submits_witness :
  App.formData (fst (App.handleCreate (always created)
                       (drafting (mkTimerCreate (lit " Anna ") (-1) 0))))
    = default_draft /\
  App.error (fst (App.handleCreate (always not_found)
                    (drafting (mkTimerCreate (lit "Anna") 0 30))))
    = lit "Timer not found" /\
  App.formData (fst (App.handleCreate (always no_content)
                       (drafting (mkTimerCreate (lit "Anna") 0 30))))
    = mkTimerCreate (lit "Anna") 0 30.
Proof.
  assert (N1 : forallb isWhiteSpace
                 (tc_name (App.formData
                    (drafting (mkTimerCreate (lit " Anna ") (-1) 0)))) = false)
    by (vm_compute; reflexivity).
  assert (N2 : forallb isWhiteSpace
                 (tc_name (App.formData
                    (drafting (mkTimerCreate (lit "Anna") 0 30)))) = false)
    by (vm_compute; reflexivity).
  assert (Z1 : minutes (App.formData
                  (drafting (mkTimerCreate (lit " Anna ") (-1) 0))) <> 0 \/
               seconds (App.formData
                  (drafting (mkTimerCreate (lit " Anna ") (-1) 0))) <> 0)
    by (left; vm_compute; discriminate).
  assert (Z2 : minutes (App.formData
                  (drafting (mkTimerCreate (lit "Anna") 0 30))) <> 0 \/
               seconds (App.formData
                  (drafting (mkTimerCreate (lit "Anna") 0 30))) <> 0)
    by (right; vm_compute; discriminate).
  pose proof (handleCreate_submits (always created) _ created N1 Z1
                (fun _ => eq_refl)) as [_ [A _]].
  pose proof (handleCreate_submits (always not_found) _ not_found N2 Z2
                (fun _ => eq_refl)) as [_ [_ [_ B]]].
  pose proof (handleCreate_submits (always no_content) _ no_content N2 Z2
                (fun _ => eq_refl)) as [_ [_ [C _]]].
  split; [|split].
  - apply (A (Timer_json (timer_a 300))); reflexivity.
  - apply (B [ (lit "detail", JStr (lit "Timer not found")) ]
             (lit "Timer not found"));
      [reflexivity | reflexivity | reflexivity | discriminate].
  - apply (C (lit "Unexpected end of JSON input")); reflexivity.
Defined.

Lemma loadTimers_outcome_witness :
  App.displayTimers
    (App.timers (fst (App.loadTimers (always created) App.init)))
    = Ok (@nil json) /\
  App.error (fst (App.loadTimers (always no_content)
                    (App.setTimers (JArr [Timer_json (timer_a 5)]) App.init)))
    = lit "Failed to load timers".
Proof.
  split.
  - apply (proj1 (proj2 (proj2 (loadTimers_outcome (always created) App.init)))
             (Timer_json (timer_a 300)) eq_refl).
    reflexivity.
  - apply (proj2 (proj2 (proj2 (loadTimers_outcome (always no_content)
             (App.setTimers (JArr [Timer_json (timer_a 5)]) App.init))))
             (mkExn SyntaxErrorK (lit "Unexpected end of JSON input")) eq_refl).
Defined.

(** ** From a frame to the rendered cards *)

Lemma onmessage_state_update (v : json) (st : App.State) :
  Js.truthy (Some v) = true ->
  WebSocketClient.onmessage (Parsed (state_update v)) panel_client st
    = App.setTimers v st.
Proof.
  intros H. unfold WebSocketClient.onmessage, state_update.
  cbn [Js.get_prop].
  change (Js.lookup (lit "type")
            [ (lit "type", JStr (lit "state_update")); (lit "timers", v) ])
    with (Some (JStr (lit "state_update"))).
  change (Js.lookup (lit "timers")
            [ (lit "type", JStr (lit "state_update")); (lit "timers", v) ])
    with (Some v).
  change (Js.strict_eq_str (Some (JStr (lit "state_update"))) (lit "state_update"))
    with true.
  cbv iota. rewrite H. reflexivity.
Qed.

(** X18. A snapshot replaces the timers wholesale and nothing else: after
    a state_update frame with a truthy timers value the timers state is
    that value whatever it was before, the error message and the draft
    are as they were, a later snapshot makes an earlier one irrelevant,
    and for a list of well-formed timers (the empty list included) the
    cards rendered are its active and completed timers in order. *)
Theorem snapshot_replaces_timers
    (v v' : json) (l : list Timer) (st : App.State) :
  Js.truthy (Some v) = true ->
  Js.truthy (Some v') = true ->
  let receive := fun x s =>
    WebSocketClient.onmessage (Parsed (state_update x)) panel_client s in
  App.timers (receive v st) = v /\
  App.error (receive v st) = App.error st /\
  App.formData (receive v st) = App.formData st /\
  receive v' (receive v st) = receive v' st /\
  App.displayTimers (App.timers (receive (JArr (map Timer_json l)) st))
    = Ok (map Timer_json (List.filter App.shown_status l)).
Proof.
  intros Hv Hv' receive. unfold receive.
  rewrite !(onmessage_state_update v) by exact Hv.
  rewrite !(onmessage_state_update v') by exact Hv'.
  rewrite (onmessage_state_update (JArr (map Timer_json l))) by reflexivity.
  repeat split. apply filter_Timer_json.
Qed.

Lemma snapshot_replaces_timers_witness :
  App.timers
    (WebSocketClient.onmessage (Parsed (state_update (JArr []))) panel_client
       (App.setTimers (JArr [Timer_json (timer_a 5)]) App.init))
  = JArr [].
Proof.
  apply (snapshot_replaces_timers (JArr []) (JArr []) []
           (App.setTimers (JArr [Timer_json (timer_a 5)]) App.init));
    reflexivity.
Defined.

(** ** TimerCard: how far the display lags behind the anchor *)

Lemma lag_updateCountdown (st : State) (tau u t now : Z) :
  on_curve st tau -> lastUpdate st = Some u ->
  u <= tau -> tau <= t -> t - tau < 250 -> t <= now ->
  exists tau' u',
    on_curve (updateCountdown now st) tau' /\
    lastUpdate (updateCountdown now st) = Some u' /\
    u' <= tau' /\ tau' <= now /\ now - tau' < 250 /\
    lastSyncTime (updateCountdown now st) = lastSyncTime st /\
    lastSyncRemaining (updateCountdown now st) = lastSyncRemaining st.
Proof.
  intros Hc Hu H1 H2 H3 H4.
  destruct (Z_le_gt_dec 250 (now - u)) as [D|E].
  - rewrite (updateCountdown_due now u st Hu D).
    exists now, now. unfold on_curve. simpl. repeat split; lia.
  - rewrite (updateCountdown_early now u st Hu) by lia.
    exists tau, u. repeat split; try assumption; lia.
Qed.

Lemma lag_run (times : list Z) (st : State) (tau u t : Z) :
  on_curve st tau -> lastUpdate st = Some u ->
  u <= tau -> tau <= t -> t - tau < 250 -> ascending t times ->
  exists tau',
    on_curve (run (frames_at times) st) tau' /\
    tau' <= last times t /\ last times t - tau' < 250 /\
    lastSyncTime (run (frames_at times) st) = lastSyncTime st /\
    lastSyncRemaining (run (frames_at times) st) = lastSyncRemaining st.
Proof.
  revert st tau u t. induction times as [|x times IH];
    intros st tau u t Hc Hu H1 H2 H3 Ha.
  - exists tau. simpl. repeat split; try assumption; lia.
  - destruct Ha as [Hx Ha].
    destruct (lag_updateCountdown st tau u t x Hc Hu H1 H2 H3 Hx)
      as [tau1 [u1 [Hc1 [Hu1 [G1 [G2 [G3 [A1 A2]]]]]]]].
    destruct (IH (updateCountdown x st) tau1 u1 x Hc1 Hu1 G1 G2 G3 Ha)
      as [tau2 [Hc2 [K1 [K2 [B1 B2]]]]].
    exists tau2.
    change (run (frames_at (x :: times)) st)
      with (run (frames_at times) (updateCountdown x st)).
    assert (L : last (x :: times) t = last times x).
    { destruct times as [|y times]; [reflexivity|].
      change (last (x :: y :: times) t) with (last (y :: times) t).
      apply last_default. }
    rewrite L, B1, B2, A1, A2. repeat split; assumption.
Qed.

(** X19. While the loop runs the display lags the anchor by less than a
    second: from a card whose displayed value lies on the anchor's curve
    at its last update (as right after mounting an active timer with
    non-negative remaining seconds), after frame callbacks whose clock
    readings never go back the displayed value is the anchored value for
    the last reading, or one more. *)
Theorem display_lag_bounded (st : State) (tau u : Z) (times : list Z) :
  on_curve st tau ->
  lastUpdate st = Some u ->
  u <= tau ->
  ascending tau times ->
  let t := last times tau in
  let anchored :=
    Z.max 0 (lastSyncRemaining st - (t - lastSyncTime st) / 1000) in
  anchored <= localRemaining (run (frames_at times) st) <= anchored + 1.
Proof.
  intros Hc Hu H1 Ha t anchored.
  destruct (lag_run times st tau u tau Hc Hu H1 ltac:(lia) ltac:(lia) Ha)
    as [tau' [Hc' [K1 [K2 [B1 B2]]]]].
  unfold on_curve in Hc'. rewrite B1, B2 in Hc'. rewrite Hc'.
  unfold anchored. fold t in K1, K2.
  assert (Q1 : (tau' - lastSyncTime st) / 1000 <= (t - lastSyncTime st) / 1000)
    by (apply Z.div_le_mono; lia).
  assert (Q2 : (t - lastSyncTime st) / 1000
               <= (tau' - lastSyncTime st + 1000) / 1000)
    by (apply Z.div_le_mono; lia).
  replace (tau' - lastSyncTime st + 1000)
    with (tau' - lastSyncTime st + 1 * 1000) in Q2 by lia.
  rewrite Z.div_add in Q2 by lia.
  lia.
Qed.

Lemma display_lag_bounded_witness :
  Z.max 0 (lastSyncRemaining (mount 0 (timer_a 60))
           - (last [100; 260; 1100] 0 - lastSyncTime (mount 0 (timer_a 60))) / 1000)
    <= localRemaining (run (frames_at [100; 260; 1100]) (mount 0 (timer_a 60)))
    <= Z.max 0 (lastSyncRemaining (mount 0 (timer_a 60))
           - (last [100; 260; 1100] 0 - lastSyncTime (mount 0 (timer_a 60))) / 1000)
       + 1.
Proof.
  apply (display_lag_bounded (mount 0 (timer_a 60)) 0 0 [100; 260; 1100]).
  - apply on_curve_mount. simpl. lia.
  - reflexivity.
  - lia.
  - simpl. lia.
Defined.
